(** * MCP browser server: session manager, workflows and tool dispatcher

    A shallow embedding of [browser.ts] (the [BrowserManager] singleton),
    [tools/web.ts], [tools/messenger.ts] and the [CallToolRequestSchema]
    handler of [index.ts].

    The browser engine (Playwright) is outside the program.  Every call into
    it is an instruction of a small free monad, [Prog]; an [Oracle] supplies
    the engine's answer to each call, and [run] records the calls in a trace.
    The fields of [BrowserManager] are the only program state; they are read
    and written through explicit [Get] and [Put] instructions so that several
    handlers in flight share one store. *)

From Stdlib Require Import ZArith String Ascii List Lia Bool.
From stdpp Require Import base strings gmap list pretty.

Open Scope string_scope.
Set Warnings "-register-all".

(** ** JavaScript values *)

(** A JSON-compatible value, as it reaches a handler at run time.  The
    dispatcher only casts ([args as { query: string }]), so a handler's
    parameter may hold any of these whatever its declared type.  Numbers
    are integers of magnitude below 10^21 here, the ones [ToString] prints
    in plain decimal digits. *)
Inductive JSValue : Type :=
| JUndefined
| JNull
| JBool (b : bool)
| JNum (n : Z)
| JStr (s : string)
| JArr (elems : list JSValue)
| JObj (fields : list (string * JSValue)).

(** [ToString], as a template literal applies it. *)
Fixpoint js_to_string (v : JSValue) : string :=
  match v with
  | JUndefined => "undefined"
  | JNull => "null"
  | JBool true => "true"
  | JBool false => "false"
  | JNum n => pretty n
  | JStr s => s
  | JArr elems =>
      (fix join (l : list JSValue) : string :=
         match l with
         | [] => ""
         | x :: rest =>
             let sx := match x with
                       | JUndefined | JNull => ""
                       | _ => js_to_string x
                       end in
             match rest with
             | [] => sx
             | _ :: _ => sx +:+ "," +:+ join rest
             end
         end) elems
  | JObj _ => "[object Object]"
  end.

(** [ToBoolean]: the falsy values are undefined, null, false, 0 and the
    empty string. *)
Definition truthy (v : JSValue) : bool :=
  match v with
  | JUndefined | JNull => false
  | JBool b => b
  | JNum n => negb (n =? 0)%Z
  | JStr s => negb (String.eqb s "")
  | JArr _ | JObj _ => true
  end.

(** A default parameter ([count: number = 20]) replaces undefined only. *)
Definition default_param (v d : JSValue) : JSValue :=
  match v with
  | JUndefined => d
  | _ => v
  end.

(** [a || b] on values. *)
Definition js_or (a b : JSValue) : JSValue := if truthy a then a else b.

(** ** JavaScript numbers *)

(** A [number] as [switchTab] looks at it: how it compares with an integer,
    which array element it names, and how a template literal prints it.
    Array lengths stay below 2^32. *)
Inductive JSNumber : Type :=
| NInt (z : Z)
    (** an integer of magnitude below 10^21 (0 and -0 alike); printed in
        decimal digits *)
| NLarge (negative : bool) (text : string)
    (** a finite number of magnitude 10^21 or more; [text] is how it
        prints, in exponent notation *)
| NFraction (floor : Z) (text : string)
    (** a finite number that is not an integer, strictly between [floor]
        and [floor + 1]; [text] is how it prints *)
| NNaN
| NInfinity (negative : bool).

(** [x < 0]. *)
Definition number_negative (x : JSNumber) : bool :=
  match x with
  | NInt z => (z <? 0)%Z
  | NLarge negative _ => negative
  | NFraction floor _ => (floor <? 0)%Z
  | NNaN => false
  | NInfinity negative => negative
  end.

(** [x >= n] for an array length [n]. *)
Definition number_at_least (x : JSNumber) (n : nat) : bool :=
  match x with
  | NInt z => (z >=? Z.of_nat n)%Z
  | NLarge negative _ => negb negative
  | NFraction floor _ => (floor >=? Z.of_nat n)%Z
  | NNaN => false
  | NInfinity negative => negb negative
  end.

(** [l[x]]: only a non-negative integer names an element; any other
    number is a property the array does not have. *)
Definition element_at {A : Type} (l : list A) (x : JSNumber) : option A :=
  match x with
  | NInt z => if (z <? 0)%Z then None else l !! Z.to_nat z
  | _ => None
  end.

(** [ToString] of a number. *)
Definition number_to_string (x : JSNumber) : string :=
  match x with
  | NInt z => pretty z
  | NLarge _ text => text
  | NFraction _ text => text
  | NNaN => "NaN"
  | NInfinity false => "Infinity"
  | NInfinity true => "-Infinity"
  end.

(** ** Strings *)

(** [hay.includes(needle)]. *)
Fixpoint includes (hay needle : string) : bool :=
  String.prefix needle hay ||
  match hay with
  | EmptyString => false
  | String _ rest => includes rest needle
  end.

(** White space removed by [trim], within ASCII: tab, line feed, vertical
    tab, form feed, carriage return and space. *)
Definition is_white_space (c : ascii) : bool :=
  let n := nat_of_ascii c in
  (Nat.leb 9 n && Nat.leb n 13) || Nat.eqb n 32.

Fixpoint trim_start (s : string) : string :=
  match s with
  | EmptyString => EmptyString
  | String c rest => if is_white_space c then trim_start rest else s
  end.

Fixpoint trim_end (s : string) : string :=
  match s with
  | EmptyString => EmptyString
  | String c rest =>
      match trim_end rest with
      | EmptyString => if is_white_space c then EmptyString else String c EmptyString
      | r => String c r
      end
  end.

Definition trim (s : string) : string := trim_end (trim_start s).

Definition non_empty (s : string) : bool := negb (String.eqb s "").

(** [o?.trim() || ''] for a text content that may be null. *)
Definition trim_or_empty (o : option string) : string :=
  match o with
  | Some s => trim s
  | None => ""
  end.

(** ** Errors *)

(** An [Error] object raised by the engine or by the language (a
    [TypeError]). *)
Record JsError : Type := mkJsError { err_name : string; err_message : string }.

(** The two error codes the dispatcher uses. *)
Inductive ErrorCode : Type := MethodNotFound | InternalError.

(** What a [throw] carries: an ordinary [Error], or the protocol's
    [McpError] with its code and the message given to its constructor. *)
Inductive Exn : Type :=
| Thrown (e : JsError)
| McpError (code : ErrorCode) (message : string).

Definition error_code_number (c : ErrorCode) : Z :=
  match c with
  | MethodNotFound => (-32601)%Z
  | InternalError => (-32603)%Z
  end.

(** [Error.prototype.toString]. *)
Definition error_to_string (e : JsError) : string :=
  if String.eqb (err_name e) "" then err_message e
  else if String.eqb (err_message e) "" then err_name e
  else err_name e +:+ ": " +:+ err_message e.

(** [error.message]; an [McpError] prefixes the code. *)
Definition exn_message (x : Exn) : string :=
  match x with
  | Thrown e => err_message e
  | McpError c msg => "MCP error " +:+ pretty (error_code_number c) +:+ ": " +:+ msg
  end.

(** [String(error)] in a [catch] clause. *)
Definition String_of_error (x : Exn) : string :=
  match x with
  | Thrown e => error_to_string e
  | McpError _ _ => "McpError: " +:+ exn_message x
  end.

(** Reading property [prop] of undefined or null. *)
Definition TypeError_read (base prop : string) : JsError :=
  mkJsError "TypeError"
    ("Cannot read properties of " +:+ base +:+ " (reading '" +:+ prop +:+ "')").

(** ** Values handed back by [page.evaluate] *)

(** The result of a script, by what [JSON.stringify] makes of it: text, or
    a [TypeError] when the value holds a BigInt or contains itself
    ([detail] is what the engine adds to describe the cycle). *)
Inductive EvalValue : Type :=
| Serializable (v : JSValue)
| HoldsBigInt
| Circular (detail : string).

Definition stringify_error (v : EvalValue) : option JsError :=
  match v with
  | Serializable _ => None
  | HoldsBigInt => Some (mkJsError "TypeError" "Do not know how to serialize a BigInt")
  | Circular detail =>
      Some (mkJsError "TypeError" ("Converting circular structure to JSON" +:+ detail))
  end.

(** ** Handles and the engine's interface *)

Definition BrowserHandle := nat.
Definition ContextHandle := nat.
Definition PageRef := nat.
Definition ElementHandle := nat.

(** What the callbacks given to [page.$$eval] read of one matched element:
    its text content, and the text content of its first [[dir="auto"]]
    descendant when there is one. *)
Record DomRow : Type := mkDomRow {
  row_text : option string;
  row_name_el : option (option string)
}.

(** Awaited calls: each suspends the handler and may reject. *)
Inductive AsyncAction : Type :=
| ChromiumLaunch (channel : option string) (headless : bool)
| ChromiumLaunchPersistentContext (userDataDir : string)
    (channel : option string) (headless : bool)
| BrowserNewContext (b : BrowserHandle)
| ContextNewPage (c : ContextHandle)
| ContextClose (c : ContextHandle)
| BrowserClose (b : BrowserHandle)
| PageGoto (p : PageRef) (url : JSValue)
| PageWaitForLoadState (p : PageRef) (state : string)
| PageTitle (p : PageRef)
| PageScreenshot (p : PageRef) (fullPage : JSValue)
| PageClick (p : PageRef) (selector : JSValue)
| PageFill (p : PageRef) (selector text : JSValue)
| PageQuery (p : PageRef) (selector : JSValue)
| PageQueryAll (p : PageRef) (selector : string)
| PageEvaluate (p : PageRef) (script : JSValue)
| PageEvaluateAccessibleTree (p : PageRef)
| PageWaitForSelector (p : PageRef) (selector timeout : JSValue)
| PageWaitForTimeout (p : PageRef) (ms : Z)
| KeyboardPress (p : PageRef) (key : string)
| ElementClick (e : ElementHandle)
| ElementFill (e : ElementHandle) (text : JSValue)
| ElementSetInputFiles (e : ElementHandle) (files : JSValue)
| ElementTextContent (e : ElementHandle).

Definition aresult (a : AsyncAction) : Type :=
  match a with
  | ChromiumLaunch _ _ => BrowserHandle
  | ChromiumLaunchPersistentContext _ _ _ => ContextHandle
  | BrowserNewContext _ => ContextHandle
  | ContextNewPage _ => PageRef
  | PageTitle _ => string
  | PageScreenshot _ _ => list Byte.byte
  | PageQuery _ _ => option ElementHandle
  | PageQueryAll _ _ => list DomRow
  | PageEvaluate _ _ => EvalValue
  | PageEvaluateAccessibleTree _ => JSValue
  | ElementTextContent _ => option string
  | _ => unit
  end.

(** Synchronous getters and setters of the client library: they answer
    from local state, without suspending and without rejecting. *)
Inductive SyncAction : Type :=
| PageUrl (p : PageRef)
| PageContext (p : PageRef)
| ContextPages (c : ContextHandle)
| PageSetDefaultTimeout (p : PageRef) (ms : Z)
| PageSetDefaultNavigationTimeout (p : PageRef) (ms : Z).

Definition sresult (a : SyncAction) : Type :=
  match a with
  | PageUrl _ => string
  | PageContext _ => ContextHandle
  | ContextPages _ => list PageRef
  | _ => unit
  end.

(** ** Program state and the monad of handlers *)

(** What the [page] field holds.  It is declared [Page | null]; at run time
    [setActivePage] stores its argument as it comes, and [pages[index]] is
    [undefined] when the index names no element.  [!this.page] takes null
    and undefined alike, [this.page !== null] does not. *)
Inductive PageSlot : Type :=
| Null
| Undefined
| Holds (p : PageRef).

Definition held (s : PageSlot) : option PageRef :=
  match s with
  | Holds p => Some p
  | Null | Undefined => None
  end.

(** The name JavaScript prints for an empty slot in a [TypeError]. *)
Definition slot_name (s : PageSlot) : string :=
  match s with
  | Undefined => "undefined"
  | _ => "null"
  end.

(** The private fields of [BrowserManager]. *)
Record BrowserManager : Type := mkManager {
  browser : option BrowserHandle;
  context : option ContextHandle;
  page : PageSlot
}.

(** The singleton as constructed: all three fields null. *)
Definition browserManager : BrowserManager := mkManager None None Null.

Inductive Prog (R : Type) : Type :=
| Ret (r : R)
| Throw (x : Exn)
| Get (k : BrowserManager -> Prog R)
| Put (m : BrowserManager) (k : Prog R)
| Sync (a : SyncAction) (k : sresult a -> Prog R)
| Await (a : AsyncAction) (k : JsError + aresult a -> Prog R).

Arguments Ret {R} r.
Arguments Throw {R} x.
Arguments Get {R} k.
Arguments Put {R} m k.
Arguments Sync {R} a k.
Arguments Await {R} a k.

Fixpoint bind {A B : Type} (p : Prog A) (f : A -> Prog B) : Prog B :=
  match p with
  | Ret r => f r
  | Throw x => Throw x
  | Get k => Get (fun m => bind (k m) f)
  | Put m k => Put m (bind k f)
  | Sync a k => Sync a (fun r => bind (k r) f)
  | Await a k => Await a (fun r => bind (k r) f)
  end.

#[global] Instance prog_ret : MRet Prog := @Ret.
#[global] Instance prog_bind : MBind Prog := fun A B f p => bind p f.

(** [try { p } catch (error) { h error }]. *)
Fixpoint try_catch {A : Type} (p : Prog A) (h : Exn -> Prog A) : Prog A :=
  match p with
  | Ret r => Ret r
  | Throw x => h x
  | Get k => Get (fun m => try_catch (k m) h)
  | Put m k => Put m (try_catch k h)
  | Sync a k => Sync a (fun r => try_catch (k r) h)
  | Await a k => Await a (fun r => try_catch (k r) h)
  end.

(** [await a]: a rejection is rethrown at the await. *)
Definition await (a : AsyncAction) : Prog (aresult a) :=
  Await a (fun r => match r with
                    | inl e => Throw (Thrown e)
                    | inr v => Ret v
                    end).

Definition sync (a : SyncAction) : Prog (sresult a) := Sync a Ret.

Definition get : Prog BrowserManager := Get Ret.

(** [o.prop] where [o] may be null or undefined: a [TypeError] when it is. *)
Definition deref {A : Type} (o : option A) (base prop : string) : Prog A :=
  match o with
  | Some a => Ret a
  | None => Throw (Thrown (TypeError_read base prop))
  end.

(** ** Configuration ([config.ts]) *)

(** The [config] object.  It is computed once from the environment when the
    process starts; the code below only reads it. *)
Record Config : Type := mkConfig {
  browser_type : string;
  userDataDir : option string;
  headless : bool;
  timeouts_navigation : Z;
  timeouts_action : Z;
  messenger_url : string
}.

(** The values [config.ts] falls back to when the environment sets nothing. *)
Definition default_config : Config :=
  mkConfig "msedge" None false 30000 10000 "https://www.messenger.com".

(** The double quote, for selectors that contain one. *)
Definition dq : string := String (ascii_of_nat 34) EmptyString.

(** [attr="value"] inside a selector. *)
Definition attr (name value : string) : string :=
  "[" +:+ name +:+ "=" +:+ dq +:+ value +:+ dq +:+ "]".

(** ** Result shapes of the tools *)

Record StatusResult : Type := mkStatus {
  success : bool;
  error : option string
}.

Record NavigateResult : Type := mkNavigate {
  nav_success : bool;
  nav_title : option string;
  nav_error : option string
}.

Record ScreenshotResult : Type := mkScreenshot {
  shot_success : bool;
  shot_base64 : option string;
  shot_error : option string
}.

Record ExtractTextResult : Type := mkExtractText {
  ext_success : bool;
  ext_text : option string;
  ext_error : option string
}.

Record ExecuteJsResult : Type := mkExecuteJs {
  js_success : bool;
  js_result : option EvalValue;
  js_error : option string
}.

Record UrlResult : Type := mkUrl {
  url : string;
  url_error : option string
}.

Record SnapshotResult : Type := mkSnapshot {
  snap_success : bool;
  snap_snapshot : option JSValue;
  snap_error : option string
}.

Record ConversationsResult : Type := mkConversations {
  conversations : list string;
  conversations_error : option string
}.

Record SearchResult : Type := mkSearch {
  results : list string;
  results_error : option string
}.

Record MessagesResult : Type := mkMessages {
  messages : list string;
  messages_error : option string
}.

Record ConversationInfo : Type := mkInfo {
  info_name : option string;
  info_participants : option (list string);
  info_error : option string
}.

(** ** [Buffer.toString('base64')] *)

Definition base64_alphabet : string :=
  "ABCDEFGHIJKLMNOPQRSTUVWXYZabcdefghijklmnopqrstuvwxyz0123456789+/".

Definition base64_digit (n : N) : ascii :=
  match String.get (N.to_nat n) base64_alphabet with
  | Some c => c
  | None => ascii_of_nat 61
  end.

Fixpoint base64 (l : list Byte.byte) : string :=
  let pad := ascii_of_nat 61 in
  match l with
  | [] => EmptyString
  | [a] =>
      let x := Byte.to_N a in
      String (base64_digit (x / 4))
        (String (base64_digit ((x mod 4) * 16))
           (String pad (String pad EmptyString)))
  | [a; b] =>
      let x := Byte.to_N a in
      let y := Byte.to_N b in
      String (base64_digit (x / 4))
        (String (base64_digit ((x mod 4) * 16 + y / 16))
           (String (base64_digit ((y mod 16) * 4))
              (String pad EmptyString)))
  | a :: b :: c :: rest =>
      let x := Byte.to_N a in
      let y := Byte.to_N b in
      let z := Byte.to_N c in
      String (base64_digit (x / 4))
        (String (base64_digit ((x mod 4) * 16 + y / 16))
           (String (base64_digit ((y mod 16) * 4 + z / 64))
              (String (base64_digit (z mod 64)) (base64 rest))))
  end%N.

(** ** [ToNumber] and [Array.prototype.slice] *)

Definition digit_of (c : ascii) : option Z :=
  let n := nat_of_ascii c in
  if Nat.leb 48 n && Nat.leb n 57 then Some (Z.of_nat (n - 48)) else None.

Fixpoint parse_digits (acc : Z) (s : string) : option Z :=
  match s with
  | EmptyString => Some acc
  | String c rest =>
      match digit_of c with
      | Some d => parse_digits (acc * 10 + d)%Z rest
      | None => None
      end
  end.

(** [ToNumber] of a string, for decimal integer literals; [None] is NaN. *)
Definition string_to_number (s : string) : option Z :=
  match trim s with
  | EmptyString => Some 0%Z
  | String c rest =>
      if Ascii.eqb c "-" then
        match rest with
        | EmptyString => None
        | _ => Z.opp <$> parse_digits 0 rest
        end
      else if Ascii.eqb c "+" then
        match rest with
        | EmptyString => None
        | _ => parse_digits 0 rest
        end
      else parse_digits 0 (String c rest)
  end.

Definition to_number (v : JSValue) : option Z :=
  match v with
  | JUndefined => None
  | JNull => Some 0%Z
  | JBool b => Some (if b then 1 else 0)%Z
  | JNum n => Some n
  | JStr s => string_to_number s
  | JArr _ | JObj _ => string_to_number (js_to_string v)
  end.

(** [l.slice(start)]: a negative start counts from the end, NaN is 0. *)
Definition js_slice_from {A : Type} (start : option Z) (l : list A) : list A :=
  match start with
  | None => l
  | Some k =>
      if (k <? 0)%Z then drop (Z.to_nat (Z.max (Z.of_nat (length l) + k) 0)) l
      else drop (Z.to_nat k) l
  end.

(** ** Field updates of [BrowserManager] *)

Definition set_browser (v : option BrowserHandle) (m : BrowserManager) : BrowserManager :=
  mkManager v (context m) (page m).

Definition set_context (v : option ContextHandle) (m : BrowserManager) : BrowserManager :=
  mkManager (browser m) v (page m).

Definition set_page (v : PageSlot) (m : BrowserManager) : BrowserManager :=
  mkManager (browser m) (context m) v.

(** [this.field = v]. *)
Definition assign (f : BrowserManager -> BrowserManager) : Prog unit :=
  Get (fun m => Put (f m) (Ret tt)).

(** [isInitialized()]: [this.page !== null]. *)
Definition isInitialized (m : BrowserManager) : bool :=
  match page m with
  | Null => false
  | Undefined | Holds _ => true
  end.

(** The messenger selectors ([SELECTORS]) and the two written in line. *)
Definition SELECTORS_searchInput : string := attr "aria-label" "Search Messenger".
Definition SELECTORS_conversationList : string :=
  attr "role" "navigation" +:+ " " +:+ attr "role" "row".
Definition SELECTORS_messageInput : string := attr "aria-label" "Message".
Definition SELECTORS_sendButton : string := attr "aria-label" "Press enter to send".
Definition SELECTORS_messageList : string :=
  attr "role" "main" +:+ " " +:+ attr "role" "row".
Definition SELECTORS_fileInput : string := "input" +:+ attr "type" "file".
Definition SELECTORS_attachButton : string := attr "aria-label" "Attach a file".
Definition login_selector : string := "input" +:+ attr "name" "email".
Definition option_selector : string :=
  attr "role" "listbox" +:+ " " +:+ attr "role" "option".
Definition header_selector : string :=
  attr "role" "main" +:+ " h1, " +:+ attr "role" "main" +:+ " " +:+ attr "dir" "auto".

Definition login_message : string :=
  "Please log in to Messenger manually in the browser window, then try again.".

(** The callbacks run by [page.$$eval] over the matched rows. *)

(** [rows.slice(0, 20).map(row => nameEl?.textContent?.trim() || '').filter(Boolean)] *)
Definition conversation_names (rows : list DomRow) : list string :=
  List.filter non_empty
    (map (fun row => match row_name_el row with
                     | Some t => trim_or_empty t
                     | None => ""
                     end)
         (take 20 rows)).

(** [options.map(opt => opt.textContent?.trim() || '').filter(Boolean)] *)
Definition option_texts (options : list DomRow) : list string :=
  List.filter non_empty (map (fun opt => trim_or_empty (row_text opt)) options).

(** [rows.slice(-limit).map(row => row.textContent?.trim() || '').filter(Boolean)] *)
Definition last_messages (limit : JSValue) (rows : list DomRow) : list string :=
  List.filter non_empty
    (map (fun row => trim_or_empty (row_text row))
         (js_slice_from (Z.opp <$> to_number limit) rows)).

(** [request.params.arguments]: absent, or an object. *)
Abbreviation ToolArgs := (option (gmap string JSValue)).

Section Server.

Variable config : Config.

(** *** [BrowserManager] ([browser.ts]) *)

Definition channel : option string :=
  if String.eqb (browser_type config) "msedge" then Some "msedge" else None.

(** [initialize()].  Each [this.x] is read from the store where the source
    reads it, so that a failure in the middle leaves what was assigned. *)
Definition initialize : Prog unit :=
  let ephemeral : Prog unit :=
    m ← get;
    b' ← deref (browser m) "null" "newContext";
    c ← await (BrowserNewContext b');
    assign (set_context (Some c));;
    m ← get;
    c' ← deref (context m) "null" "newPage";
    p ← await (ContextNewPage c');
    assign (set_page (Holds p)) in
  let persistent (dir : string) : Prog unit :=
    c ← await (ChromiumLaunchPersistentContext dir channel (headless config));
    assign (set_context (Some c));;
    m ← get;
    c' ← deref (context m) "null" "pages";
    pages ← sync (ContextPages c');
    match pages with
    | p0 :: _ => assign (set_page (Holds p0))
    | [] =>
        m ← get;
        c'' ← deref (context m) "null" "newPage";
        p ← await (ContextNewPage c'');
        assign (set_page (Holds p))
    end in
  b ← await (ChromiumLaunch channel (headless config));
  assign (set_browser (Some b));;
  match userDataDir config with
  | Some dir => if String.eqb dir "" then ephemeral else persistent dir
  | None => ephemeral
  end;;
  m ← get;
  p ← deref (held (page m)) (slot_name (page m)) "setDefaultTimeout";
  sync (PageSetDefaultTimeout p (timeouts_action config));;
  m ← get;
  p ← deref (held (page m)) (slot_name (page m)) "setDefaultNavigationTimeout";
  sync (PageSetDefaultNavigationTimeout p (timeouts_navigation config)).

(** [getPage()]: [!this.page] holds for null and for undefined;
    [return this.page!] hands back the slot as it is. *)
Definition getPage : Prog PageSlot :=
  m ← get;
  match page m with
  | Null | Undefined => initialize
  | Holds _ => Ret tt
  end;;
  m' ← get;
  Ret (page m').

(** [close()]. *)
Definition close : Prog unit :=
  m ← get;
  match context m with
  | Some c => await (ContextClose c)
  | None => Ret tt
  end;;
  m ← get;
  match browser m with
  | Some b => await (BrowserClose b)
  | None => Ret tt
  end;;
  assign (set_browser None);;
  assign (set_context None);;
  assign (set_page Null).

(** [setActivePage(page)]: the argument is [pages[index]], undefined when
    the index names no element. *)
Definition setActivePage (pg : option PageRef) : Prog unit :=
  assign (set_page (match pg with Some q => Holds q | None => Undefined end));;
  m ← get;
  p ← deref (held (page m)) (slot_name (page m)) "setDefaultTimeout";
  sync (PageSetDefaultTimeout p (timeouts_action config));;
  m ← get;
  p ← deref (held (page m)) (slot_name (page m)) "setDefaultNavigationTimeout";
  sync (PageSetDefaultNavigationTimeout p (timeouts_navigation config)).

(** [const page = await browserManager.getPage()] followed by a first use
    [page.prop]. *)
Definition the_page (prop : string) : Prog PageRef :=
  pg ← getPage;
  deref (held pg) (slot_name pg) prop.

(** *** Web tools ([tools/web.ts]) *)

(** [listTabs] is exported by the module but no case of the dispatcher
    calls it; it is left out. *)

Definition navigate (url : JSValue) : Prog NavigateResult :=
  try_catch
    (p ← the_page "goto";
     await (PageGoto p url);;
     await (PageWaitForLoadState p "networkidle");;
     title ← await (PageTitle p);
     Ret (mkNavigate true (Some title) None))
    (fun e => Ret (mkNavigate false None (Some (String_of_error e)))).

Definition screenshot (fullPage : JSValue) : Prog ScreenshotResult :=
  let fullPage := default_param fullPage (JBool false) in
  try_catch
    (p ← the_page "screenshot";
     buffer ← await (PageScreenshot p fullPage);
     Ret (mkScreenshot true (Some (base64 buffer)) None))
    (fun e => Ret (mkScreenshot false None (Some (String_of_error e)))).

Definition click (selector : JSValue) : Prog StatusResult :=
  try_catch
    (p ← the_page "click";
     await (PageClick p selector);;
     Ret (mkStatus true None))
    (fun e => Ret (mkStatus false (Some (String_of_error e)))).

Definition type (selector text : JSValue) : Prog StatusResult :=
  try_catch
    (p ← the_page "fill";
     await (PageFill p selector text);;
     Ret (mkStatus true None))
    (fun e => Ret (mkStatus false (Some (String_of_error e)))).

Definition extractText (selector : JSValue) : Prog ExtractTextResult :=
  try_catch
    (p ← the_page "$";
     element ← await (PageQuery p (if truthy selector then selector else JStr "body"));
     match element with
     | None =>
         Ret (mkExtractText false None
                (Some ("Element not found: " +:+ js_to_string (js_or selector (JStr "body")))))
     | Some el =>
         text ← await (ElementTextContent el);
         Ret (mkExtractText true (Some (trim_or_empty text)) None)
     end)
    (fun e => Ret (mkExtractText false None (Some (String_of_error e)))).

Definition executeJs (script : JSValue) : Prog ExecuteJsResult :=
  try_catch
    (p ← the_page "evaluate";
     result ← await (PageEvaluate p script);
     Ret (mkExecuteJs true (Some result) None))
    (fun e => Ret (mkExecuteJs false None (Some (String_of_error e)))).

Definition waitFor (selector timeout : JSValue) : Prog StatusResult :=
  let timeout := default_param timeout (JNum 5000) in
  try_catch
    (p ← the_page "waitForSelector";
     await (PageWaitForSelector p selector timeout);;
     Ret (mkStatus true None))
    (fun e => Ret (mkStatus false (Some (String_of_error e)))).

Definition getCurrentUrl : Prog UrlResult :=
  try_catch
    (p ← the_page "url";
     u ← sync (PageUrl p);
     Ret (mkUrl u None))
    (fun e => Ret (mkUrl "" (Some (String_of_error e)))).

(** [switchTab(index)]. *)
Definition switchTab (index : JSNumber) : Prog StatusResult :=
  try_catch
    (p ← the_page "context";
     ctx ← sync (PageContext p);
     pages ← sync (ContextPages ctx);
     if number_negative index || number_at_least index (length pages) then
       Ret (mkStatus false (Some ("Invalid tab index: " +:+ number_to_string index)))
     else
       setActivePage (element_at pages index);;
       Ret (mkStatus true None))
    (fun e => Ret (mkStatus false (Some (String_of_error e)))).

(** [getAccessibilitySnapshot()]; the tree walk runs inside the page and is
    one call to the engine. *)
Definition getAccessibilitySnapshot : Prog SnapshotResult :=
  try_catch
    (p ← the_page "$";
     bodyHandle ← await (PageQuery p (JStr "body"));
     match bodyHandle with
     | None => Ret (mkSnapshot false None (Some "Could not get page body"))
     | Some _ =>
         snapshot ← await (PageEvaluateAccessibleTree p);
         Ret (mkSnapshot true (Some snapshot) None)
     end)
    (fun e => Ret (mkSnapshot false None (Some (String_of_error e)))).

(** *** Messenger tools ([tools/messenger.ts]) *)

Definition ensureMessengerOpen : Prog StatusResult :=
  try_catch
    (p ← the_page "url";
     currentUrl ← sync (PageUrl p);
     (if includes currentUrl "messenger.com" then Ret tt
      else
        await (PageGoto p (JStr (messenger_url config)));;
        await (PageWaitForLoadState p "networkidle"));;
     isLoginPage ← await (PageQuery p (JStr login_selector));
     match isLoginPage with
     | Some _ => Ret (mkStatus false (Some login_message))
     | None => Ret (mkStatus true None)
     end)
    (fun e => Ret (mkStatus false (Some (String_of_error e)))).

Definition listConversations : Prog ConversationsResult :=
  try_catch
    (messengerStatus ← ensureMessengerOpen;
     if negb (success messengerStatus) then
       Ret (mkConversations [] (error messengerStatus))
     else
       p ← the_page "$$eval";
       rows ← await (PageQueryAll p SELECTORS_conversationList);
       Ret (mkConversations (conversation_names rows) None))
    (fun e => Ret (mkConversations [] (Some (String_of_error e)))).

Definition searchConversation (query : JSValue) : Prog SearchResult :=
  try_catch
    (messengerStatus ← ensureMessengerOpen;
     if negb (success messengerStatus) then
       Ret (mkSearch [] (error messengerStatus))
     else
       p ← the_page "$";
       searchInput ← await (PageQuery p (JStr SELECTORS_searchInput));
       match searchInput with
       | None => Ret (mkSearch [] (Some "Could not find search input"))
       | Some input =>
           await (ElementClick input);;
           await (ElementFill input query);;
           await (PageWaitForTimeout p 1000);;
           options ← await (PageQueryAll p option_selector);
           await (ElementFill input (JStr ""));;
           await (KeyboardPress p "Escape");;
           Ret (mkSearch (option_texts options) None)
       end)
    (fun e => Ret (mkSearch [] (Some (String_of_error e)))).

Definition openConversation (conversationName : JSValue) : Prog StatusResult :=
  try_catch
    (p ← the_page "$";
     searchInput ← await (PageQuery p (JStr SELECTORS_searchInput));
     match searchInput with
     | None => Ret (mkStatus false (Some "Could not find search input"))
     | Some input =>
         await (ElementClick input);;
         await (ElementFill input conversationName);;
         await (PageWaitForTimeout p 1000);;
         firstResult ← await (PageQuery p (JStr option_selector));
         match firstResult with
         | None =>
             Ret (mkStatus false
                    (Some ("Could not find conversation: " +:+ js_to_string conversationName)))
         | Some first =>
             await (ElementClick first);;
             await (PageWaitForTimeout p 500);;
             Ret (mkStatus true None)
         end
     end)
    (fun e => Ret (mkStatus false (Some (String_of_error e)))).

Definition sendMessage (conversationName message : JSValue) : Prog StatusResult :=
  try_catch
    (messengerStatus ← ensureMessengerOpen;
     if negb (success messengerStatus) then
       Ret (mkStatus false (error messengerStatus))
     else
       openResult ← openConversation conversationName;
       if negb (success openResult) then Ret openResult
       else
         p ← the_page "$";
         messageInput ← await (PageQuery p (JStr SELECTORS_messageInput));
         match messageInput with
         | None => Ret (mkStatus false (Some "Could not find message input"))
         | Some input =>
             await (ElementClick input);;
             await (ElementFill input message);;
             await (KeyboardPress p "Enter");;
             await (PageWaitForTimeout p 500);;
             Ret (mkStatus true None)
         end)
    (fun e => Ret (mkStatus false (Some (String_of_error e)))).

Definition readMessages (count : JSValue) : Prog MessagesResult :=
  let count := default_param count (JNum 20) in
  try_catch
    (messengerStatus ← ensureMessengerOpen;
     if negb (success messengerStatus) then
       Ret (mkMessages [] (error messengerStatus))
     else
       p ← the_page "$$eval";
       rows ← await (PageQueryAll p SELECTORS_messageList);
       Ret (mkMessages (last_messages count rows) None))
    (fun e => Ret (mkMessages [] (Some (String_of_error e)))).

Definition sendFile (conversationName filePath : JSValue) : Prog StatusResult :=
  try_catch
    (messengerStatus ← ensureMessengerOpen;
     if negb (success messengerStatus) then
       Ret (mkStatus false (error messengerStatus))
     else
       openResult ← openConversation conversationName;
       if negb (success openResult) then Ret openResult
       else
         p ← the_page "$";
         attachButton ← await (PageQuery p (JStr SELECTORS_attachButton));
         match attachButton with
         | Some button => await (ElementClick button)
         | None => Ret tt
         end;;
         fileInput ← await (PageQuery p (JStr SELECTORS_fileInput));
         match fileInput with
         | None => Ret (mkStatus false (Some "Could not find file input"))
         | Some input =>
             await (ElementSetInputFiles input filePath);;
             await (PageWaitForTimeout p 1000);;
             await (KeyboardPress p "Enter");;
             await (PageWaitForTimeout p 1000);;
             Ret (mkStatus true None)
         end)
    (fun e => Ret (mkStatus false (Some (String_of_error e)))).

Definition getConversationInfo : Prog ConversationInfo :=
  try_catch
    (messengerStatus ← ensureMessengerOpen;
     if negb (success messengerStatus) then
       Ret (mkInfo None None (error messengerStatus))
     else
       p ← the_page "$";
       nameEl ← await (PageQuery p (JStr header_selector));
       text ← match nameEl with
              | Some el => await (ElementTextContent el)
              | None => Ret None
              end;
       let name := match text with
                   | Some t => if non_empty t then Some t else None
                   | None => None
                   end in
       Ret (mkInfo name
              (Some match name with
                    | Some n => [n]
                    | None => []
                    end)
              None))
    (fun e => Ret (mkInfo None None (Some (String_of_error e)))).

(** *** Tool dispatcher ([index.ts]) *)

(** What [JSON.stringify] is applied to: the handler's result object. *)
Inductive ToolOutput : Type :=
| OutConversations (r : ConversationsResult)
| OutSearch (r : SearchResult)
| OutStatus (r : StatusResult)
| OutMessages (r : MessagesResult)
| OutInfo (r : ConversationInfo)
| OutNavigate (r : NavigateResult)
| OutScreenshot (r : ScreenshotResult)
| OutExtractText (r : ExtractTextResult)
| OutExecuteJs (r : ExecuteJsResult)
| OutUrl (r : UrlResult)
| OutSnapshot (r : SnapshotResult).

(** One element of [content]; [text] holds the result that was
    serialized. *)
Record TextContent : Type := mkText {
  content_type : string;
  text : ToolOutput
}.

Record CallToolResult : Type := mkCallToolResult {
  content : list TextContent
}.

(** [(args as { f: T }).f]. *)
Definition arg (args : ToolArgs) (f : string) : Prog JSValue :=
  match args with
  | None => Throw (Thrown (TypeError_read "undefined" f))
  | Some o => Ret (default JUndefined (o !! f))
  end.

(** The [switch] of the handler, up to [result]. *)
Definition tool_switch (name : string) (args : ToolArgs) : Prog ToolOutput :=
  if String.eqb name "messenger_list_conversations" then
    r ← listConversations; Ret (OutConversations r)
  else if String.eqb name "messenger_search_conversation" then
    query ← arg args "query";
    r ← searchConversation query; Ret (OutSearch r)
  else if String.eqb name "messenger_send_message" then
    conversationName ← arg args "conversationName";
    message ← arg args "message";
    r ← sendMessage conversationName message; Ret (OutStatus r)
  else if String.eqb name "messenger_read_messages" then
    count ← arg args "count";
    r ← readMessages count; Ret (OutMessages r)
  else if String.eqb name "messenger_send_file" then
    conversationName ← arg args "conversationName";
    filePath ← arg args "filePath";
    r ← sendFile conversationName filePath; Ret (OutStatus r)
  else if String.eqb name "messenger_get_info" then
    r ← getConversationInfo; Ret (OutInfo r)
  else if String.eqb name "web_navigate" then
    u ← arg args "url";
    r ← navigate u; Ret (OutNavigate r)
  else if String.eqb name "web_screenshot" then
    fullPage ← arg args "fullPage";
    r ← screenshot fullPage; Ret (OutScreenshot r)
  else if String.eqb name "web_click" then
    selector ← arg args "selector";
    r ← click selector; Ret (OutStatus r)
  else if String.eqb name "web_type" then
    selector ← arg args "selector";
    txt ← arg args "text";
    r ← type selector txt; Ret (OutStatus r)
  else if String.eqb name "web_extract_text" then
    selector ← arg args "selector";
    r ← extractText selector; Ret (OutExtractText r)
  else if String.eqb name "web_execute_js" then
    script ← arg args "script";
    r ← executeJs script; Ret (OutExecuteJs r)
  else if String.eqb name "web_wait_for" then
    selector ← arg args "selector";
    timeout ← arg args "timeout";
    r ← waitFor selector timeout; Ret (OutStatus r)
  else if String.eqb name "web_get_url" then
    r ← getCurrentUrl; Ret (OutUrl r)
  else if String.eqb name "web_accessibility_snapshot" then
    r ← getAccessibilitySnapshot; Ret (OutSnapshot r)
  else if String.eqb name "browser_close" then
    close;;
    Ret (OutStatus (mkStatus true None))
  else
    Throw (McpError MethodNotFound ("Unknown tool: " +:+ name)).

(** [JSON.stringify(result, null, 2)]: it throws when the result holds a
    value it cannot serialize, which only the result of a script can be;
    otherwise it yields the text of [result]. *)
Definition JSON_stringify (result : ToolOutput) : Prog ToolOutput :=
  match result with
  | OutExecuteJs r =>
      match js_result r with
      | Some v =>
          match stringify_error v with
          | Some err => Throw (Thrown err)
          | None => Ret result
          end
      | None => Ret result
      end
  | _ => Ret result
  end.

(** The [CallToolRequestSchema] handler. *)
Definition callTool (name : string) (args : ToolArgs) : Prog CallToolResult :=
  try_catch
    (result ← tool_switch name args;
     serialized ← JSON_stringify result;
     Ret (mkCallToolResult [mkText "text" serialized]))
    (fun err =>
       match err with
       | McpError _ _ => Throw err
       | Thrown e =>
           Throw (McpError InternalError ("Tool execution failed: " +:+ err_message e))
       end).

End Server.

(** The declared tools ([TOOLS]): name, properties with their types, and
    required fields. *)
Record Tool : Type := mkTool {
  tool_name : string;
  properties : list (string * string);
  required : list string
}.

Definition TOOLS : list Tool := [
  mkTool "messenger_list_conversations" [] [];
  mkTool "messenger_search_conversation" [("query", "string")] ["query"];
  mkTool "messenger_send_message"
    [("conversationName", "string"); ("message", "string")]
    ["conversationName"; "message"];
  mkTool "messenger_read_messages" [("count", "number")] [];
  mkTool "messenger_send_file"
    [("conversationName", "string"); ("filePath", "string")]
    ["conversationName"; "filePath"];
  mkTool "messenger_get_info" [] [];
  mkTool "web_navigate" [("url", "string")] ["url"];
  mkTool "web_screenshot" [("fullPage", "boolean")] [];
  mkTool "web_click" [("selector", "string")] ["selector"];
  mkTool "web_type" [("selector", "string"); ("text", "string")] ["selector"; "text"];
  mkTool "web_extract_text" [("selector", "string")] [];
  mkTool "web_execute_js" [("script", "string")] ["script"];
  mkTool "web_wait_for" [("selector", "string"); ("timeout", "number")] ["selector"];
  mkTool "web_get_url" [] [];
  mkTool "web_accessibility_snapshot" [] [];
  mkTool "browser_close" [] []
].

Definition declared (name : string) : Prop := In name (map tool_name TOOLS).



(** ** Running a handler against the engine *)

(** The engine's answers.  The [n]-th call of a run gets [answer n] when it
    is awaited and [local n] when it is synchronous, so an oracle can
    reproduce any behaviour of the engine along a run. *)
Record Oracle : Type := mkOracle {
  answer : nat -> forall a : AsyncAction, JsError + aresult a;
  local : nat -> forall a : SyncAction, sresult a
}.

Inductive Event : Type :=
| EAwait (a : AsyncAction) (r : JsError + aresult a)
| ESync (a : SyncAction) (r : sresult a).

Record Outcome (R : Type) : Type := mkOutcome {
  final : BrowserManager;
  returned : Exn + R;
  trace : list Event
}.

Arguments mkOutcome {R} _ _ _.
Arguments final {R} _.
Arguments returned {R} _.
Arguments trace {R} _.

Definition logged {R : Type} (e : Event) (o : Outcome R) : Outcome R :=
  mkOutcome (final o) (returned o) (e :: trace o).

(** [run o n m p]: run [p] to completion from store [m], the next call
    being the [n]-th.  A [Prog] is a finite tree, so every run ends. *)
Fixpoint run {R : Type} (o : Oracle) (n : nat) (m : BrowserManager) (p : Prog R)
  : Outcome R :=
  match p with
  | Ret r => mkOutcome m (inr r) []
  | Throw x => mkOutcome m (inl x) []
  | Get k => run o n m (k m)
  | Put m' k => run o n m' k
  | Sync a k =>
      let r := local o n a in
      logged (ESync a r) (run o (S n) m (k r))
  | Await a k =>
      let r := answer o n a in
      logged (EAwait a r) (run o (S n) m (k r))
  end.

(** Sequencing of outcomes: what [run] does after a first part ended with
    outcome [r1], the next call being numbered from [n]. *)
Definition and_then {A B : Type} (r1 : Outcome A) (rest : A -> BrowserManager -> nat -> Outcome B)
  (n : nat) : Outcome B :=
  match returned r1 with
  | inl x => mkOutcome (final r1) (inl x) (trace r1)
  | inr a =>
      let r2 := rest a (final r1) (n + length (trace r1)) in
      mkOutcome (final r2) (returned r2) (trace r1 ++ trace r2)%list
  end.

Definition or_else {A : Type} (r1 : Outcome A) (handler : Exn -> BrowserManager -> nat -> Outcome A)
  (n : nat) : Outcome A :=
  match returned r1 with
  | inr a => mkOutcome (final r1) (inr a) (trace r1)
  | inl x =>
      let r2 := handler x (final r1) (n + length (trace r1)) in
      mkOutcome (final r2) (returned r2) (trace r1 ++ trace r2)%list
  end.

(** ** Observations on a trace *)

(** A call without its answer. *)
Inductive Call : Type :=
| CAwait (a : AsyncAction)
| CSync (a : SyncAction).

Definition call_of (e : Event) : Call :=
  match e with
  | EAwait a _ => CAwait a
  | ESync a _ => CSync a
  end.

Definition calls (tr : list Event) : list Call := map call_of tr.

(** The answered element lookups ([page.$]) of a trace: selector and what
    was found. *)
Definition query_of (e : Event) : option (JSValue * option ElementHandle) :=
  match e with
  | EAwait a r =>
      match a return JsError + aresult a -> option (JSValue * option ElementHandle) with
      | PageQuery _ selector =>
          fun r => match r with
                   | inr found => Some (selector, found)
                   | inl _ => None
                   end
      | _ => fun _ => None
      end r
  | ESync _ _ => None
  end.

Definition queries (tr : list Event) : list (JSValue * option ElementHandle) :=
  omap query_of tr.

(** The rejected calls of a trace. *)
Definition rejection_of (e : Event) : option JsError :=
  match e with
  | EAwait _ (inl err) => Some err
  | _ => None
  end.

Definition rejections (tr : list Event) : list JsError := omap rejection_of tr.

(** The page lists ([context.pages()]) read along a trace. *)
Definition page_list_of (e : Event) : option (list PageRef) :=
  match e with
  | ESync a r =>
      match a return sresult a -> option (list PageRef) with
      | ContextPages _ => fun r => Some r
      | _ => fun _ => None
      end r
  | EAwait _ _ => None
  end.

Definition page_lists (tr : list Event) : list (list PageRef) := omap page_list_of tr.

(** Calls that type into an input or press a key. *)
Definition types_or_presses (c : Call) : bool :=
  match c with
  | CAwait (ElementFill _ _) | CAwait (PageFill _ _ _) | CAwait (KeyboardPress _ _) => true
  | _ => false
  end.

(** [a], then [b], then [c] occur in [l], in that order. *)
Definition in_order {A : Type} (a b c : A) (l : list A) : Prop :=
  exists l0 l1 l2 l3, l = (l0 ++ a :: l1 ++ b :: l2 ++ c :: l3)%list.

(** ** Sample engines *)

Definition engine_failure : JsError := mkJsError "Error" "Target closed".

(** What a working engine hands back: handle 1 for the browser, 2 for its
    context, 3 for the page; [present] says which selectors match and
    [rows] is what [$$eval] sees. *)
Definition answer_ok (present : string -> option ElementHandle) (rows : list DomRow)
  (a : AsyncAction) : aresult a :=
  match a return aresult a with
  | ChromiumLaunch _ _ => 1
  | ChromiumLaunchPersistentContext _ _ _ => 2
  | BrowserNewContext _ => 2
  | ContextNewPage _ => 3
  | ContextClose _ => tt
  | BrowserClose _ => tt
  | PageGoto _ _ => tt
  | PageWaitForLoadState _ _ => tt
  | PageTitle _ => "Messenger"
  | PageScreenshot _ _ => []
  | PageClick _ _ => tt
  | PageFill _ _ _ => tt
  | PageQuery _ selector =>
      match selector with
      | JStr s => present s
      | _ => None
      end
  | PageQueryAll _ _ => rows
  | PageEvaluate _ _ => Serializable JUndefined
  | PageEvaluateAccessibleTree _ => JNull
  | PageWaitForSelector _ _ _ => tt
  | PageWaitForTimeout _ _ => tt
  | KeyboardPress _ _ => tt
  | ElementClick _ => tt
  | ElementFill _ _ => tt
  | ElementSetInputFiles _ _ => tt
  | ElementTextContent _ => Some "text"
  end.

Definition local_ok (current : string) (a : SyncAction) : sresult a :=
  match a return sresult a with
  | PageUrl _ => current
  | PageContext _ => 2
  | ContextPages _ => [3]
  | PageSetDefaultTimeout _ _ => tt
  | PageSetDefaultNavigationTimeout _ _ => tt
  end.

(** An engine that rejects the calls [fails] selects and answers the others. *)
Definition engine (fails : AsyncAction -> bool) (present : string -> option ElementHandle)
  (rows : list DomRow) (current : string) : Oracle :=
  mkOracle
    (fun _ a => if fails a then inl engine_failure else inr (answer_ok present rows a))
    (fun _ a => local_ok current a).

Definition never (a : AsyncAction) : bool := false.

(** Messenger open and logged in: every selector but the login form
    matches, as element 7. *)
Definition logged_in (s : string) : option ElementHandle :=
  if String.eqb s login_selector then None else Some 7.

(** As [logged_in], with no message input on the page. *)
Definition no_message_input (s : string) : option ElementHandle :=
  if String.eqb s login_selector || String.eqb s SELECTORS_messageInput then None
  else Some 7.

(** As [logged_in], with an empty search result list. *)
Definition no_search_result (s : string) : option ElementHandle :=
  if String.eqb s login_selector || String.eqb s option_selector then None
  else Some 7.

(** The login form is showing. *)
Definition logged_out (s : string) : option ElementHandle :=
  if String.eqb s login_selector then Some 5 else None.

Definition messenger_home : string := "https://www.messenger.com/t/1".

(** The engine starts, then refuses to open a context. *)
Definition context_fails (a : AsyncAction) : bool :=
  match a with
  | BrowserNewContext _ => true
  | _ => false
  end.

(** A working engine over a page described in more detail: [text] is the
    text content of each element and [evaluated] what a script hands
    back. *)
Definition answer_page (present : string -> option ElementHandle) (rows : list DomRow)
  (text : ElementHandle -> option string) (evaluated : EvalValue)
  (a : AsyncAction) : aresult a :=
  match a return aresult a with
  | ChromiumLaunch _ _ => 1
  | ChromiumLaunchPersistentContext _ _ _ => 2
  | BrowserNewContext _ => 2
  | ContextNewPage _ => 3
  | ContextClose _ => tt
  | BrowserClose _ => tt
  | PageGoto _ _ => tt
  | PageWaitForLoadState _ _ => tt
  | PageTitle _ => "Messenger"
  | PageScreenshot _ _ => []
  | PageClick _ _ => tt
  | PageFill _ _ _ => tt
  | PageQuery _ selector =>
      match selector with
      | JStr s => present s
      | _ => None
      end
  | PageQueryAll _ _ => rows
  | PageEvaluate _ _ => evaluated
  | PageEvaluateAccessibleTree _ => JNull
  | PageWaitForSelector _ _ _ => tt
  | PageWaitForTimeout _ _ => tt
  | KeyboardPress _ _ => tt
  | ElementClick _ => tt
  | ElementFill _ _ => tt
  | ElementSetInputFiles _ _ => tt
  | ElementTextContent e => text e
  end.

Definition page_engine (present : string -> option ElementHandle) (rows : list DomRow)
  (text : ElementHandle -> option string) (evaluated : EvalValue) (current : string)
  : Oracle :=
  mkOracle (fun _ a => inr (answer_page present rows text evaluated a))
           (fun _ a => local_ok current a).

(** Messenger open and logged in; the search lists one conversation,
    element 8, and it is Alice's. *)
Definition alice_listed : Oracle :=
  page_engine
    (fun s => if String.eqb s login_selector then None
              else if String.eqb s option_selector then Some 8
              else Some 7)
    []
    (fun e => if Nat.eqb e 8 then Some "Alice" else None)
    (Serializable JUndefined)
    messenger_home.

(** A page whose scripts hand back a BigInt. *)
Definition bigint_page : Oracle :=
  page_engine logged_in [] (fun _ => None) HoldsBigInt messenger_home.

(** A manager after a successful [initialize] against [engine]. *)
Definition ready : BrowserManager := mkManager (Some 1) (Some 2) (Holds 3).

(** ** Result-only reasoning *)

(** [wp p Q E]: whatever the engine answers and whatever the store holds,
    [p] returns a value in [Q] or throws an exception in [E]. *)
Fixpoint wp {R : Type} (p : Prog R) (Q : R -> Prop) (E : Exn -> Prop) : Prop :=
  match p with
  | Ret r => Q r
  | Throw x => E x
  | Get k => forall m, wp (k m) Q E
  | Put _ k => wp k Q E
  | Sync a k => forall r, wp (k r) Q E
  | Await a k => forall r, wp (k r) Q E
  end.

(** A program that always returns a value. *)
Definition never_throws {R : Type} (p : Prog R) : Prop :=
  wp p (fun _ => True) (fun _ => False).

(** An exception that is not the protocol's own. *)
Definition ordinary (x : Exn) : Prop :=
  match x with
  | Thrown _ => True
  | McpError _ _ => False
  end.

(** ** Reasoning with the trace and the store *)

(** [wpt p m Q]: started from store [m], whatever the engine answers, [p]
    ends with a trace, a store and a result in [Q]. *)
Fixpoint wpt {R : Type} (p : Prog R) (m : BrowserManager)
    (Q : list Event -> BrowserManager -> Exn + R -> Prop) : Prop :=
  match p with
  | Ret r => Q [] m (inr r)
  | Throw x => Q [] m (inl x)
  | Get k => wpt (k m) m Q
  | Put m' k => wpt k m' Q
  | Sync a k => forall r, wpt (k r) m (fun tr => Q (ESync a r :: tr))
  | Await a k => forall r, wpt (k r) m (fun tr => Q (EAwait a r :: tr))
  end.

(** A stretch of trace that looks up no element and types nothing. *)
Definition quiet (tr : list Event) : Prop :=
  queries tr = [] /\ List.filter types_or_presses (calls tr) = [].

(** What a run of [sendMessage] must satisfy: with an empty search result
    list, the error names the conversation and the only typing is the name
    typed into the search input; with a first result, a message input and no
    rejected call, the run succeeds and ends by clicking the result, filling
    the message input and pressing Enter. *)
Definition send_post (name message : JSValue) (tr : list Event)
    (res : Exn + StatusResult) : Prop :=
  (In (JStr option_selector, None) (queries tr) ->
   res = inr (mkStatus false
                (Some ("Could not find conversation: " +:+ js_to_string name))) /\
   exists input,
     In (JStr SELECTORS_searchInput, Some input) (queries tr) /\
     List.filter types_or_presses (calls tr) = [CAwait (ElementFill input name)]) /\
  (forall first input,
     In (JStr option_selector, Some first) (queries tr) ->
     In (JStr SELECTORS_messageInput, Some input) (queries tr) ->
     rejections tr = [] ->
     res = inr (mkStatus true None) /\
     exists p pre,
       calls tr = (pre ++ [CAwait (ElementClick first);
                          CAwait (PageWaitForTimeout p 500);
                          CAwait (PageQuery p (JStr SELECTORS_messageInput));
                          CAwait (ElementClick input);
                          CAwait (ElementFill input message);
                          CAwait (KeyboardPress p "Enter");
                          CAwait (PageWaitForTimeout p 500)])%list).

(** ** Several calls in flight *)

(** The protocol layer starts the handler of each request as the request
    arrives; nothing in [index.ts] queues them.  An [async] handler runs
    until it awaits the engine, is suspended there, and goes on when that
    call resolves; the handlers in flight share the one [BrowserManager].
    Control changes hands only at an awaited call, never in the middle of a
    synchronous stretch. *)

(** A handler between two awaits. *)
Inductive Task (R : Type) : Type :=
| Finished (res : Exn + R)
| Suspended (a : AsyncAction) (k : JsError + aresult a -> Prog R).

Arguments Finished {R} res.
Arguments Suspended {R} a k.

(** What the engine and the caller see, tagged with the number of the call
    (calls are numbered from 0 in arrival order): an awaited call issued,
    an awaited call resolved, a synchronous call, a handler completed. *)
Inductive Entry : Type :=
| Issued (call : nat) (a : AsyncAction)
| Resolved (call : nat) (a : AsyncAction)
| Direct (call : nat) (a : SyncAction)
| Completed (call : nat).

Definition entry_call (e : Entry) : nat :=
  match e with
  | Issued c _ | Resolved c _ | Direct c _ | Completed c => c
  end.

(** A synchronous call of handler [call]. *)
Definition is_direct (call : nat) (e : Entry) : Prop :=
  exists a, e = Direct call a.

Record Advance (R : Type) : Type := mkAdvance {
  adv_store : BrowserManager;
  adv_clock : nat;
  adv_log : list Entry;
  adv_task : Task R
}.

Arguments mkAdvance {R} _ _ _ _.
Arguments adv_store {R} _.
Arguments adv_clock {R} _.
Arguments adv_log {R} _.
Arguments adv_task {R} _.

(** [advance o call n m p]: run handler [call] from [p] up to its next
    awaited call, or to its end. *)
Fixpoint advance {R : Type} (o : Oracle) (call : nat) (n : nat) (m : BrowserManager)
    (p : Prog R) : Advance R :=
  match p with
  | Ret r => mkAdvance m n [Completed call] (Finished (inr r))
  | Throw x => mkAdvance m n [Completed call] (Finished (inl x))
  | Get k => advance o call n m (k m)
  | Put m' k => advance o call n m' k
  | Sync a k =>
      let next := advance o call (S n) m (k (local o n a)) in
      mkAdvance (adv_store next) (adv_clock next) (Direct call a :: adv_log next)
        (adv_task next)
  | Await a k => mkAdvance m n [Issued call a] (Suspended a k)
  end.

(** The server with its calls in flight. *)
Record Pool : Type := mkPool {
  store : BrowserManager;
  clock : nat;
  tasks : list (Task CallToolResult);
  log : list Entry
}.

(** A server that has received nothing yet. *)
Definition idle (m : BrowserManager) : Pool := mkPool m 0 [] [].

(** A request arrives: its handler starts at once. *)
Definition arrive (config : Config) (o : Oracle) (name : string) (args : ToolArgs)
    (s : Pool) : Pool :=
  let call := length (tasks s) in
  let next := advance o call (clock s) (store s) (callTool config name args) in
  mkPool (adv_store next) (adv_clock next) (tasks s ++ [adv_task next])%list
    (log s ++ adv_log next)%list.

(** The awaited call of handler [call] resolves: the handler goes on.  For
    a handler that is not suspended nothing happens. *)
Definition resume (o : Oracle) (call : nat) (s : Pool) : Pool :=
  match tasks s !! call with
  | Some (Suspended a k) =>
      let next := advance o call (S (clock s)) (store s) (k (answer o (clock s) a)) in
      mkPool (adv_store next) (adv_clock next) (<[call := adv_task next]> (tasks s))
        (log s ++ Resolved call a :: adv_log next)%list
  | _ => s
  end.

(** The engine resolves the pending calls in the order [order]. *)
Definition resolve_all (o : Oracle) (order : list nat) (s : Pool) : Pool :=
  fold_left (fun s call => resume o call s) order s.

(** Two calls arrive one behind the other, then the pending calls resolve
    in the order [order]. *)
Definition two_calls (config : Config) (o : Oracle) (m : BrowserManager)
    (name1 : string) (args1 : ToolArgs) (name2 : string) (args2 : ToolArgs)
    (order : list nat) : Pool :=
  resolve_all o order
    (arrive config o name2 args2 (arrive config o name1 args1 (idle m))).

(** [serial done log]: in [log], every browser interaction of call 1 comes
    after the completion of call 0, and call 1 does not complete before
    call 0 ([done] says whether call 0 has completed already). *)
Fixpoint serial (done : bool) (l : list Entry) : bool :=
  match l with
  | [] => true
  | e :: rest =>
      match e with
      | Completed 0 => serial true rest
      | _ => (negb (Nat.eqb (entry_call e) 1) || done) && serial done rest
      end
  end.

(** The tools whose handlers act on the active page: they navigate, click,
    type, press keys or run a script. *)
Definition page_mutating : list string :=
  ["messenger_search_conversation"; "messenger_send_message"; "messenger_send_file";
   "web_navigate"; "web_click"; "web_type"; "web_execute_js"].


(** The browsers the engine launched along a trace, and the contexts it
    opened. *)
Definition launch_of (e : Event) : option BrowserHandle :=
  match e with
  | EAwait a r =>
      match a return JsError + aresult a -> option BrowserHandle with
      | ChromiumLaunch _ _ =>
          fun r => match r with
                   | inr b => Some b
                   | inl _ => None
                   end
      | _ => fun _ => None
      end r
  | ESync _ _ => None
  end.

Definition launched (tr : list Event) : list BrowserHandle := omap launch_of tr.

Definition context_of (e : Event) : option ContextHandle :=
  match e with
  | EAwait a r =>
      match a return JsError + aresult a -> option ContextHandle with
      | ChromiumLaunchPersistentContext _ _ _ | BrowserNewContext _ =>
          fun r => match r with
                   | inr c => Some c
                   | inl _ => None
                   end
      | _ => fun _ => None
      end r
  | ESync _ _ => None
  end.

Definition contexts_opened (tr : list Event) : list ContextHandle := omap context_of tr.

(** The value of a field after handles [given] were assigned to it in
    turn: the last one, or what the field held. *)
Definition assigned {A : Type} (given : list A) (before : option A) : option A :=
  match last given with
  | Some h => Some h
  | None => before
  end.

(** ** More observations *)

(** [keeps m p]: started from store [m], [p] ends with the store as it was. *)
Definition keeps {R : Type} (m : BrowserManager) (p : Prog R) : Prop :=
  wpt p m (fun _ m' _ => m' = m).

(** The engine refuses to close the context. *)
Definition context_close_fails (a : AsyncAction) : bool :=
  match a with
  | ContextClose _ => true
  | _ => false
  end.

(** A configuration with a profile directory. *)
Definition profile_config : Config :=
  mkConfig "msedge" (Some "C:/Users/User/Edge") false 30000 10000
    "https://www.messenger.com".

(** A status whose two fields agree: a success carries no error, a failure
    carries one. *)
Definition consistent (r : StatusResult) : Prop :=
  (success r = true /\ error r = None) \/
  (success r = false /\ exists msg, error r = Some msg).

(** A result with a payload: a success carries the payload and no error, a
    failure carries an error and no payload. *)
Definition agrees {A : Type} (ok : bool) (payload : option A) (err : option string) : Prop :=
  (ok = true /\ (exists v, payload = Some v) /\ err = None) \/
  (ok = false /\ payload = None /\ exists msg, err = Some msg).

(** A list result under the soft-failure convention: with an error the list
    is empty; no entry is ever the empty string. *)
Definition soft (entries : list string) (err : option string) : Prop :=
  (err = None \/ entries = []) /\ Forall (fun s => s <> "") entries.

(** * Properties *)

Section RunLemmas.

Variable o : Oracle.

Lemma outcome_eta {R : Type} (r : Outcome R) :
  mkOutcome (final r) (returned r) (trace r) = r.
Proof. destruct r; reflexivity. Qed.

Lemma and_then_logged {A B : Type} (e : Event) (r1 : Outcome A)
    (rest : A -> BrowserManager -> nat -> Outcome B) (n : nat) :
  logged e (and_then r1 rest (S n)) = and_then (logged e r1) rest n.
Proof.
  unfold and_then, logged; simpl.
  destruct (returned r1); simpl; [reflexivity|].
  replace (n + S (length (trace r1))) with (S n + length (trace r1)) by lia.
  reflexivity.
Qed.

Lemma or_else_logged {A : Type} (e : Event) (r1 : Outcome A)
    (handler : Exn -> BrowserManager -> nat -> Outcome A) (n : nat) :
  logged e (or_else r1 handler (S n)) = or_else (logged e r1) handler n.
Proof.
  unfold or_else, logged; simpl.
  destruct (returned r1); simpl; [|reflexivity].
  replace (n + S (length (trace r1))) with (S n + length (trace r1)) by lia.
  reflexivity.
Qed.

Lemma run_bind {A B : Type} (p : Prog A) (f : A -> Prog B) (n : nat) (m : BrowserManager) :
  run o n m (bind p f) = and_then (run o n m p) (fun a m' n' => run o n' m' (f a)) n.
Proof.
  revert n m; induction p as [r|x|k IH|m' k IH|a k IH|a k IH]; intros n m; simpl.
  - unfold and_then; simpl. rewrite Nat.add_0_r. symmetry; apply outcome_eta.
  - reflexivity.
  - apply IH.
  - apply IH.
  - rewrite IH. apply and_then_logged.
  - rewrite IH. apply and_then_logged.
Qed.

Lemma run_mbind {A B : Type} (p : Prog A) (f : A -> Prog B) (n : nat) (m : BrowserManager) :
  run o n m (p ≫= f) = and_then (run o n m p) (fun a m' n' => run o n' m' (f a)) n.
Proof. apply run_bind. Qed.

Lemma run_try_catch {A : Type} (p : Prog A) (h : Exn -> Prog A) (n : nat) (m : BrowserManager) :
  run o n m (try_catch p h) = or_else (run o n m p) (fun x m' n' => run o n' m' (h x)) n.
Proof.
  revert n m; induction p as [r|x|k IH|m' k IH|a k IH|a k IH]; intros n m; simpl.
  - reflexivity.
  - unfold or_else; simpl. rewrite Nat.add_0_r. symmetry; apply outcome_eta.
  - apply IH.
  - apply IH.
  - rewrite IH. apply or_else_logged.
  - rewrite IH. apply or_else_logged.
Qed.

Lemma wp_run {R : Type} (p : Prog R) (Q : R -> Prop) (E : Exn -> Prop) :
  wp p Q E ->
  forall n m, match returned (run o n m p) with
              | inr r => Q r
              | inl x => E x
              end.
Proof.
  induction p as [r|x|k IH|m' k IH|a k IH|a k IH]; simpl; intros H n m;
    first [exact H | apply (IH _ (H _)) | apply (IH H)].
Qed.

End RunLemmas.

Lemma wp_weaken {R : Type} (p : Prog R) (Q Q' : R -> Prop) (E E' : Exn -> Prop) :
  (forall r, Q r -> Q' r) -> (forall x, E x -> E' x) -> wp p Q E -> wp p Q' E'.
Proof.
  intros HQ HE; induction p as [r|x|k IH|m' k IH|a k IH|a k IH]; simpl; auto.
Qed.

Lemma wp_any {R : Type} (p : Prog R) (Q : R -> Prop) (E : Exn -> Prop) :
  (forall r, Q r) -> (forall x, E x) -> wp p Q E.
Proof.
  intros HQ HE; induction p as [r|x|k IH|m' k IH|a k IH|a k IH]; simpl; auto.
Qed.

Lemma wp_bind {A B : Type} (p : Prog A) (f : A -> Prog B) (Q : B -> Prop) (E : Exn -> Prop) :
  wp p (fun a => wp (f a) Q E) E -> wp (p ≫= f) Q E.
Proof.
  change (p ≫= f) with (bind p f).
  induction p as [r|x|k IH|m' k IH|a k IH|a k IH]; simpl; auto.
Qed.

Lemma wp_try_catch {A : Type} (p : Prog A) (h : Exn -> Prog A) (Q : A -> Prop) (E : Exn -> Prop) :
  wp p Q (fun x => wp (h x) Q E) -> wp (try_catch p h) Q E.
Proof.
  induction p as [r|x|k IH|m' k IH|a k IH|a k IH]; simpl; auto.
Qed.

(** Every tool function ends in [catch (error) { return ... }]: it returns
    whatever happens inside. *)
Lemma caught_never_throws {A : Type} (p : Prog A) (h : Exn -> A) :
  never_throws (try_catch p (fun e => Ret (h e))).
Proof.
  apply wp_try_catch. apply wp_any; simpl; auto.
Qed.

Lemma caught_wp {A : Type} (p : Prog A) (h : Exn -> A) (Q : A -> Prop) (E : Exn -> Prop) :
  wp p Q (fun x => Q (h x)) -> wp (try_catch p (fun e => Ret (h e))) Q E.
Proof. intros H. apply wp_try_catch. exact H. Qed.

Lemma arg_ordinary (args : ToolArgs) (f : string) : wp (arg args f) (fun _ => True) ordinary.
Proof. destruct args; simpl; exact I. Qed.

Lemma close_ordinary : wp close (fun _ => True) ordinary.
Proof.
  unfold close. simpl. intros m.
  destruct (context m); simpl.
  - intros [e|[]]; simpl; [exact I|]. intros m2.
    destruct (browser m2); simpl; [intros [e|[]]; simpl|]; auto.
  - intros m2. destruct (browser m2); simpl; [intros [e|[]]; simpl|]; auto.
Qed.

(** ** The dispatcher *)

Lemma not_declared_eqb (name : string) :
  ~ declared name ->
  forall s, In s (map tool_name TOOLS) -> String.eqb name s = false.
Proof.
  intros H s Hs. apply String.eqb_neq. intros ->. exact (H Hs).
Qed.

Lemma tool_switch_unknown (config : Config) (name : string) (args : ToolArgs) :
  ~ declared name ->
  tool_switch config name args = Throw (McpError MethodNotFound ("Unknown tool: " +:+ name)).
Proof.
  intros H. pose proof (not_declared_eqb name H) as Hne.
  unfold tool_switch.
  rewrite !Hne by (simpl; repeat first [left; reflexivity | right]).
  reflexivity.
Qed.

(** For a declared name the [switch] throws nothing but ordinary errors:
    a [TypeError] on an absent payload, or what [close] lets through. *)
Lemma tool_switch_ordinary (config : Config) (name : string) (args : ToolArgs) :
  declared name ->
  wp (tool_switch config name args) (fun _ => True) ordinary.
Proof.
  unfold declared. simpl.
  intros H.
  repeat destruct H as [<-|H]; try contradiction;
    unfold tool_switch; simpl String.eqb; cbv iota;
    repeat first
      [ apply wp_bind; eapply wp_weaken;
        [ | | first [ apply arg_ordinary
                    | apply close_ordinary
                    | apply caught_never_throws ] ];
        [ intros ? _ | simpl; tauto ]
      | exact I ].
Qed.

Lemma JSON_stringify_ordinary (result : ToolOutput) :
  wp (JSON_stringify result) (fun _ => True) ordinary.
Proof.
  destruct result as [| | | | | | | |r| |]; simpl; try exact I.
  destruct (js_result r) as [[v| |detail]|]; simpl; exact I.
Qed.


Lemma callTool_wp (config : Config) (name : string) (args : ToolArgs) :
  declared name ->
  wp (callTool config name args) (fun _ => True)
     (fun x => exists msg, x = McpError InternalError msg).
Proof.
  intros H. unfold callTool.
  apply wp_try_catch. apply wp_bind.
  eapply wp_weaken; [ | | apply (tool_switch_ordinary config name args H) ].
  - intros r _. apply wp_bind.
    eapply wp_weaken; [ | | apply JSON_stringify_ordinary ].
    + intros r' _. exact I.
    + intros [e|c msg]; simpl; [eauto | contradiction].
  - intros [e|c msg]; simpl; [eauto | contradiction].
Qed.

Lemma never_throws_bind {A B : Type} (p : Prog A) (f : A -> Prog B) :
  never_throws p -> (forall a, never_throws (f a)) -> never_throws (p ≫= f).
Proof.
  intros Hp Hf. apply wp_bind.
  eapply wp_weaken; [ | | exact Hp ]; simpl.
  - intros a _. apply Hf.
  - tauto.
Qed.




(** C3: a tool name outside the declared set is answered with the
    protocol error [MethodNotFound] ("Unknown tool: <name>"); the engine is
    not called, the manager is left as it was, so the session is
    uninitialized afterwards exactly when it was before.  The error is
    distinct: no declared tool ever produces it. *)
Theorem unknown_tool_rejected
    (config : Config) (o : Oracle) (n : nat) (m : BrowserManager)
    (name : string) (args : ToolArgs) :
  ~ declared name ->
  let out := run o n m (callTool config name args) in
  returned out = inl (McpError MethodNotFound ("Unknown tool: " +:+ name)) /\
  trace out = [] /\
  final out = m /\
  (isInitialized (final out) = false <-> isInitialized m = false) /\
  (forall name' args' o' n' m' msg,
      declared name' ->
      returned (run o' n' m' (callTool config name' args'))
      <> inl (McpError MethodNotFound msg)).
Proof.
  intros H out. subst out.
  assert (Hrun : run o n m (callTool config name args)
                 = mkOutcome m (inl (McpError MethodNotFound ("Unknown tool: " +:+ name))) []).
  { unfold callTool. rewrite (tool_switch_unknown config name args H). reflexivity. }
  rewrite Hrun. simpl.
  repeat split; auto.
  intros name' args' o' n' m' msg Hd Heq.
  pose proof (wp_run o' _ _ _ (callTool_wp config name' args' Hd) n' m') as W.
  rewrite Heq in W. destruct W as [msg' W]. discriminate W.
Qed.

Lemma unknown_tool_rejected_witness :
  ~ declared "web_list_tabs" /\
  returned (run (engine never logged_in [] messenger_home) 0 browserManager
              (callTool default_config "web_list_tabs" (Some ∅)))
  = inl (McpError MethodNotFound "Unknown tool: web_list_tabs").
Proof.
  assert (H : ~ declared "web_list_tabs").
  { unfold declared; simpl. intros H.
    repeat destruct H as [H|H]; try discriminate H; exact H. }
  split; [exact H|].
  exact (proj1 (unknown_tool_rejected default_config
                  (engine never logged_in [] messenger_home) 0 browserManager
                  "web_list_tabs" (Some ∅) H)).
Defined.


(** ** The session manager *)

(** C9: on an initialized manager [getPage] is idempotent: two calls in a
    row return the same page, call the engine not at all (nothing is
    launched again) and leave the manager as it was. *)
Theorem getPage_idempotent
    (config : Config) (o : Oracle) (n : nat) (m : BrowserManager) (p : PageRef) :
  page m = Holds p ->
  run o n m (first ← getPage config; second ← getPage config; Ret (first, second))
  = mkOutcome m (inr (Holds p, Holds p)) [].
Proof.
  intros H. unfold getPage. simpl. rewrite H. simpl. rewrite H. simpl.
  rewrite H. reflexivity.
Qed.

Lemma getPage_idempotent_witness :
  page ready = Holds 3 /\
  run (engine never logged_in [] messenger_home) 0 ready
    (first ← getPage default_config; second ← getPage default_config; Ret (first, second))
  = mkOutcome ready (inr (Holds 3, Holds 3)) [].
Proof.
  split; [reflexivity|].
  apply (getPage_idempotent default_config _ 0 ready 3). reflexivity.
Defined.

(** ** Traces and stores *)

Lemma wpt_run {R : Type} (o : Oracle) (p : Prog R) :
  forall (m : BrowserManager) (Q : list Event -> BrowserManager -> Exn + R -> Prop),
    wpt p m Q ->
    forall n, Q (trace (run o n m p)) (final (run o n m p)) (returned (run o n m p)).
Proof.
  induction p as [r|x|k IH|m' k IH|a k IH|a k IH]; simpl; intros m Q H n.
  - exact H.
  - exact H.
  - apply IH, H.
  - apply IH, H.
  - apply (IH _ m (fun tr => Q (ESync a (local o n a) :: tr)) (H _)).
  - apply (IH _ m (fun tr => Q (EAwait a (answer o n a) :: tr)) (H _)).
Qed.

Lemma wpt_weaken {R : Type} (p : Prog R) :
  forall (m : BrowserManager) (Q Q' : list Event -> BrowserManager -> Exn + R -> Prop),
    (forall tr m' res, Q tr m' res -> Q' tr m' res) ->
    wpt p m Q -> wpt p m Q'.
Proof.
  induction p as [r|x|k IH|m' k IH|a k IH|a k IH]; simpl; intros m Q Q' HQ H.
  - apply HQ, H.
  - apply HQ, H.
  - eapply IH; eauto.
  - eapply IH; eauto.
  - intros r. eapply IH; [|apply H]. intros; apply HQ; assumption.
  - intros r. eapply IH; [|apply H]. intros; apply HQ; assumption.
Qed.

Lemma wpt_bind {A B : Type} (p : Prog A) (f : A -> Prog B) :
  forall (m : BrowserManager) (Q : list Event -> BrowserManager -> Exn + B -> Prop),
    wpt p m (fun tr1 m1 res1 =>
               match res1 with
               | inl x => Q tr1 m1 (inl x)
               | inr a => wpt (f a) m1 (fun tr2 => Q (tr1 ++ tr2)%list)
               end) ->
    wpt (p ≫= f) m Q.
Proof.
  change (p ≫= f) with (bind p f).
  induction p as [r|x|k IH|m' k IH|a k IH|a k IH]; simpl; intros m Q H.
  - exact H.
  - exact H.
  - apply IH, H.
  - apply IH, H.
  - intros r. apply IH. exact (H r).
  - intros r. apply IH. exact (H r).
Qed.

Lemma wpt_try_catch {A : Type} (p : Prog A) (h : Exn -> Prog A) :
  forall (m : BrowserManager) (Q : list Event -> BrowserManager -> Exn + A -> Prop),
    wpt p m (fun tr1 m1 res1 =>
               match res1 with
               | inr a => Q tr1 m1 (inr a)
               | inl x => wpt (h x) m1 (fun tr2 => Q (tr1 ++ tr2)%list)
               end) ->
    wpt (try_catch p h) m Q.
Proof.
  induction p as [r|x|k IH|m' k IH|a k IH|a k IH]; simpl; intros m Q H.
  - exact H.
  - exact H.
  - apply IH, H.
  - apply IH, H.
  - intros r. apply IH. exact (H r).
  - intros r. apply IH. exact (H r).
Qed.

Lemma quiet_nil : quiet [].
Proof. split; reflexivity. Qed.

(** Case analysis on what the configuration and the engine can answer. *)
Ltac branch :=
  match goal with
  | |- forall r : JsError + _, _ => intros [?e|?v]
  | |- forall r : _, _ => intros ?r
  | |- context [match userDataDir ?c with _ => _ end] => destruct (userDataDir c) eqn:?
  | |- context [if String.eqb ?a ?b then _ else _] => destruct (String.eqb a b) eqn:?
  | |- context [if includes ?a ?b then _ else _] => destruct (includes a b) eqn:?
  | |- context [match ?v with [] => _ | _ :: _ => _ end] => is_var v; destruct v
  | |- context [match ?v with Some _ => _ | None => _ end] => is_var v; destruct v
  end.

Ltac explore := repeat (simpl; branch); simpl.

(** [initialize] looks up no element; when it succeeds the page slot is
    filled, and when it fails the page slot is as it was. *)
Lemma initialize_spec (config : Config) (m : BrowserManager) :
  wpt (initialize config) m
    (fun tr m' res =>
       quiet tr /\
       match res with
       | inr _ => exists p, page m' = Holds p
       | inl _ => page m' = page m
       end).
Proof.
  unfold initialize. explore; (split; [split; reflexivity | eauto]).
Qed.

Lemma wpt_get {A : Type} (f : BrowserManager -> Prog A) (m : BrowserManager)
    (Q : list Event -> BrowserManager -> Exn + A -> Prop) :
  wpt (f m) m Q -> wpt (get ≫= f) m Q.
Proof. intros H. exact H. Qed.

(** [getPage] on any store: a success hands back the page now in the slot;
    a failure can only come from [initialize], and leaves the slot empty. *)
Lemma getPage_spec (config : Config) (m : BrowserManager) :
  wpt (getPage config) m
    (fun tr m' res =>
       quiet tr /\
       match res with
       | inr pg => exists p, pg = Holds p /\ page m' = Holds p
       | inl _ => held (page m) = None /\ page m' = page m
       end).
Proof.
  unfold getPage. apply wpt_get. destruct (page m) as [| |p] eqn:Hp.
  3: { simpl. rewrite Hp. split; [apply quiet_nil | eauto]. }
  all: apply wpt_bind;
    (eapply wpt_weaken; [|apply initialize_spec]);
    intros tr m' [x|[]] [Hq H]; simpl;
    [ split; [exact Hq|]; split; [reflexivity | congruence]
    | rewrite app_nil_r; destruct H as [p Hp']; rewrite Hp'; eauto ].
Qed.

Lemma the_page_spec (config : Config) (prop : string) (m : BrowserManager) :
  wpt (the_page config prop) m
    (fun tr m' res =>
       quiet tr /\
       match res with
       | inr p => page m' = Holds p
       | inl _ => held (page m) = None /\ page m' = page m
       end).
Proof.
  unfold the_page. apply wpt_bind.
  eapply wpt_weaken; [|apply getPage_spec].
  intros tr m' [x|pg] [Hq H]; simpl; [tauto|].
  destruct H as (p & -> & Hp). simpl. rewrite app_nil_r. tauto.
Qed.

(** On an initialized manager [the_page] is silent. *)
Lemma the_page_ready {A : Type} (config : Config) (prop : string) (m : BrowserManager)
    (p : PageRef) (f : PageRef -> Prog A)
    (Q : list Event -> BrowserManager -> Exn + A -> Prop) :
  page m = Holds p ->
  wpt (f p) m Q -> wpt (the_page config prop ≫= f) m Q.
Proof.
  intros Hp H. unfold the_page, getPage.
  apply wpt_bind. apply wpt_bind. apply wpt_get. rewrite Hp. simpl.
  rewrite Hp. simpl. exact H.
Qed.

(** Every tool begins [try { const page = await browserManager.getPage(); ... }
    catch (error) { return h(error) }]: when [getPage] fails with [x], the
    tool returns [h x]. *)
Lemma tool_surfaces_failure {A : Type} (config : Config) (o : Oracle) (n : nat)
    (m : BrowserManager) (x : Exn) (prop : string) (body : PageRef -> Prog A)
    (h : Exn -> A) :
  returned (run o n m (getPage config)) = inl x ->
  returned (run o n m (try_catch (the_page config prop ≫= body) (fun e => Ret (h e))))
  = inr (h x).
Proof.
  intros H. rewrite run_try_catch. unfold the_page. rewrite !run_mbind.
  unfold and_then, or_else. rewrite H. simpl. reflexivity.
Qed.

(** C4, as stated, fails: when the engine starts and then cannot open a
    context, [getPage] fails and the manager keeps the engine handle, with
    no context and no page. *)
Lemma failed_initialize_keeps_browser :
  ~ (forall (config : Config) (o : Oracle) (n : nat) (x : Exn),
        returned (run o n browserManager (getPage config)) = inl x ->
        final (run o n browserManager (getPage config)) = browserManager).
Proof.
  intros H.
  specialize (H default_config (engine context_fails logged_in [] messenger_home)
                0 (Thrown engine_failure) eq_refl).
  vm_compute in H. discriminate H.
Qed.

(** [initialize] never takes back what it assigned: whether it succeeds or
    fails, the browser field holds the browser the engine launched, if it
    launched one, and the context field the context it opened, if it opened
    one; otherwise they are as before. *)
Lemma initialize_handles_spec (config : Config) (m : BrowserManager) :
  wpt (initialize config) m
    (fun tr m' res =>
       browser m' = assigned (launched tr) (browser m) /\
       context m' = assigned (contexts_opened tr) (context m)).
Proof.
  unfold initialize. explore; split; reflexivity.
Qed.

Lemma getPage_handles_spec (config : Config) (m : BrowserManager) :
  wpt (getPage config) m
    (fun tr m' res =>
       browser m' = assigned (launched tr) (browser m) /\
       context m' = assigned (contexts_opened tr) (context m)).
Proof.
  unfold getPage. apply wpt_get. destruct (page m) as [| |p] eqn:Hp.
  3: { simpl. split; reflexivity. }
  all: apply wpt_bind;
    (eapply wpt_weaken; [|apply initialize_handles_spec]);
    intros tr m' [x|[]] H; simpl; [exact H|];
    rewrite app_nil_r; exact H.
Qed.

(** C4, amended: when initialization fails, the call surfaces the failure
    as its error result and the page slot stays as it was, empty: on a
    manager whose slot was null [isInitialized()] is still false, and the
    next [getPage] initializes again, beginning with the launch of the
    engine.  The fields assigned before the failing step keep their
    handles: the browser field holds the browser that was launched and the
    context field the context that was opened, when the failure came after
    them. *)
Theorem failed_initialize_leaves_no_page
    (config : Config) (o : Oracle) (n : nat) (m : BrowserManager) (x : Exn) :
  returned (run o n m (getPage config)) = inl x ->
  let m' := final (run o n m (getPage config)) in
  held (page m') = None /\
  page m' = page m /\
  (page m = Null -> isInitialized m' = false) /\
  browser m' = assigned (launched (trace (run o n m (getPage config)))) (browser m) /\
  context m' = assigned (contexts_opened (trace (run o n m (getPage config)))) (context m) /\
  (forall (A : Type) (prop : string) (body : PageRef -> Prog A) (h : Exn -> A),
      returned (run o n m (try_catch (the_page config prop ≫= body)
                             (fun e => Ret (h e))))
      = inr (h x)) /\
  (forall o' n',
      exists rest,
        trace (run o' n' m' (getPage config))
        = EAwait (ChromiumLaunch (channel config) (headless config))
            (answer o' n' (ChromiumLaunch (channel config) (headless config)))
          :: rest).
Proof.
  intros H m'.
  pose proof (wpt_run o _ _ _ (getPage_spec config m) n) as S.
  cbv beta in S. rewrite H in S. destruct S as [_ [Hempty Hp]].
  assert (Hp' : page m' = page m) by exact Hp.
  assert (He : held (page m') = None) by (rewrite Hp'; exact Hempty).
  destruct (wpt_run o _ _ _ (getPage_handles_spec config m) n) as [Hb Hc].
  split; [exact He|]. split; [exact Hp'|].
  split; [intros Hn; unfold isInitialized; rewrite Hp', Hn; reflexivity|].
  split; [exact Hb|]. split; [exact Hc|].
  split.
  - intros A prop body h. apply tool_surfaces_failure. exact H.
  - intros o' n'. unfold getPage. simpl.
    destruct (page m') as [| |q]; [| |discriminate He];
      unfold initialize; simpl; eexists; reflexivity.
Qed.

Lemma failed_initialize_leaves_no_page_witness :
  page (final (run (engine context_fails logged_in [] messenger_home) 0 browserManager
                 (getPage default_config))) = Null /\
  isInitialized (final (run (engine context_fails logged_in [] messenger_home) 0
                          browserManager (getPage default_config))) = false /\
  browser (final (run (engine context_fails logged_in [] messenger_home) 0 browserManager
                    (getPage default_config))) = Some 1 /\
  context (final (run (engine context_fails logged_in [] messenger_home) 0 browserManager
                    (getPage default_config))) = None.
Proof.
  destruct (failed_initialize_leaves_no_page default_config
              (engine context_fails logged_in [] messenger_home) 0 browserManager
              (Thrown engine_failure) eq_refl)
    as (_ & Hp & Hi & Hb & Hc & _).
  split; [exact Hp|]. split; [exact (Hi eq_refl)|]. split; [exact Hb | exact Hc].
Defined.

Lemma getPage_ready (config : Config) (o : Oracle) (n : nat) (m : BrowserManager)
    (p : PageRef) :
  page m = Holds p -> run o n m (getPage config) = mkOutcome m (inr (Holds p)) [].
Proof. intros H. unfold getPage. simpl. rewrite H. simpl. rewrite H. reflexivity. Qed.




(** C8, at the index the guard misses: NaN is outside every range
    [0, pages.length), yet both comparisons of the guard are false for it.
    With a page active, [switchTab(NaN)] goes on to
    [setActivePage(pages[NaN])], that is [setActivePage(undefined)]: the
    page slot is overwritten before the [TypeError] that [switchTab]
    catches.  The call returns an error, and the manager has lost its
    active page: the slot holds undefined, which [isInitialized()] takes
    for a page and [getPage] does not, so the next [getPage] launches the
    engine again. *)
Theorem switchTab_NaN_clears_page
    (config : Config) (o : Oracle) (n : nat) (m : BrowserManager) (p : PageRef) :
  page m = Holds p ->
  returned (run o n m (switchTab config NNaN))
  = inr (mkStatus false
           (Some "TypeError: Cannot read properties of undefined (reading 'setDefaultTimeout')")) /\
  final (run o n m (switchTab config NNaN)) = set_page Undefined m /\
  page (final (run o n m (switchTab config NNaN))) <> Holds p /\
  held (page (final (run o n m (switchTab config NNaN)))) = None /\
  isInitialized (final (run o n m (switchTab config NNaN))) = true /\
  (forall o' n',
      exists rest,
        trace (run o' n' (final (run o n m (switchTab config NNaN))) (getPage config))
        = EAwait (ChromiumLaunch (channel config) (headless config))
            (answer o' n' (ChromiumLaunch (channel config) (headless config)))
          :: rest).
Proof.
  intros Hp.
  cut (wpt (switchTab config NNaN) m
         (fun tr m' res =>
            res = inr (mkStatus false
                         (Some "TypeError: Cannot read properties of undefined (reading 'setDefaultTimeout')")) /\
            m' = set_page Undefined m)).
  { intros W. destruct (wpt_run o _ _ _ W n) as [Hr Hf].
    rewrite Hr, Hf. repeat split; try reflexivity; try discriminate.
    intros o' n'. unfold getPage, initialize. simpl. eexists. reflexivity. }
  unfold switchTab. apply wpt_try_catch.
  apply (the_page_ready config "context" m p _ _ Hp).
  simpl. intros ctx listed. split; reflexivity.
Qed.

Lemma switchTab_NaN_clears_page_witness :
  page ready = Holds 3 /\
  final (run (engine never logged_in [] messenger_home) 0 ready
           (switchTab default_config NNaN))
  = mkManager (Some 1) (Some 2) Undefined.
Proof.
  split; [reflexivity|].
  destruct (switchTab_NaN_clears_page default_config
              (engine never logged_in [] messenger_home) 0 ready 3 eq_refl)
    as (_ & H & _).
  exact H.
Defined.

(** ** Payloads *)





(** ** The messenger workflows *)

Lemma queries_quiet_app (tr1 tr2 : list Event) :
  quiet tr1 -> queries (tr1 ++ tr2) = queries tr2.
Proof. intros [H _]. unfold queries in *. rewrite omap_app, H. reflexivity. Qed.

Lemma typing_quiet_app (tr1 tr2 : list Event) :
  quiet tr1 ->
  List.filter types_or_presses (calls (tr1 ++ tr2))
  = List.filter types_or_presses (calls tr2).
Proof.
  intros [_ H]. unfold calls in *. rewrite map_app, List.filter_app, H. reflexivity.
Qed.

(** [ensureMessengerOpen] always returns a status.  It types nothing, looks
    up the login form only, reports the login message whenever that form is
    found, and leaves a page in the slot when it succeeds. *)
Lemma ensureMessengerOpen_spec (config : Config) (m : BrowserManager) :
  wpt (ensureMessengerOpen config) m
    (fun tr m' res =>
       List.filter types_or_presses (calls tr) = [] /\
       (forall sel found, In (sel, found) (queries tr) -> sel = JStr login_selector) /\
       exists st,
         res = inr st /\
         (forall el, In (JStr login_selector, Some el) (queries tr) ->
                     st = mkStatus false (Some login_message)) /\
         (success st = true -> exists p, page m' = Holds p)).
Proof.
  unfold ensureMessengerOpen. apply wpt_try_catch. apply wpt_bind.
  eapply wpt_weaken; [|apply the_page_spec].
  intros tr1 m1 [x|p] [Hq H].
  - simpl. rewrite app_nil_r. destruct Hq as [Hq1 Hq2]. rewrite Hq1, Hq2.
    split; [reflexivity|]. split; [intros ? ? []|].
    eexists; split; [reflexivity|]. split; [intros ? []|discriminate].
  - explore;
      rewrite ?app_nil_r, <- ?app_assoc;
      rewrite ?(queries_quiet_app _ _ Hq), ?(typing_quiet_app _ _ Hq); simpl;
      (split; [reflexivity|]);
      (split; [intros ? ? Hin; repeat destruct Hin as [Hin|Hin];
               first [contradiction | congruence] |]);
      eexists; (split; [reflexivity|]);
      (split; [intros ? Hin; repeat destruct Hin as [Hin|Hin];
               first [contradiction | congruence | reflexivity]
              | intros Hs; first [discriminate Hs | eauto]]).
Qed.

Lemma queries_app (tr1 tr2 : list Event) :
  queries (tr1 ++ tr2) = (queries tr1 ++ queries tr2)%list.
Proof. unfold queries. apply omap_app. Qed.

Lemma calls_app (tr1 tr2 : list Event) :
  calls (tr1 ++ tr2) = (calls tr1 ++ calls tr2)%list.
Proof. unfold calls. apply map_app. Qed.

(** When the login form is found, [listConversations] returns the empty
    list with the login message. *)
Lemma listConversations_spec (config : Config) (m : BrowserManager) :
  wpt (listConversations config) m
    (fun tr m' res =>
       forall el, In (JStr login_selector, Some el) (queries tr) ->
                  res = inr (mkConversations [] (Some login_message))).
Proof.
  unfold listConversations. apply wpt_try_catch. apply wpt_bind.
  eapply wpt_weaken; [|apply ensureMessengerOpen_spec].
  intros tr1 m1 res (Ht & Hsel & st & -> & Hlogin & Hpage).
  destruct (success st) eqn:Hs; simpl.
  - destruct (Hpage eq_refl) as [p Hp].
    apply (the_page_ready config "$$eval" m1 p _ _ Hp).
    simpl. intros [e|rows]; simpl; intros el Hin;
      rewrite ?app_nil_r, <- ?app_assoc, queries_app in Hin; simpl in Hin;
      rewrite app_nil_r in Hin;
      rewrite (Hlogin el Hin) in Hs; discriminate Hs.
  - intros el Hin. rewrite app_nil_r in Hin. rewrite (Hlogin el Hin). reflexivity.
Qed.

(** C7: when the login form is on the page (the lookup of the login
    selector finds an element), [listConversations] returns normally, with
    an empty conversation list and the non-empty message asking for a manual
    login; the dispatcher hands that result back as the call's content and
    raises no protocol error. *)
Theorem listConversations_login_required
    (config : Config) (o : Oracle) (n : nat) (m : BrowserManager) (el : ElementHandle) :
  In (JStr login_selector, Some el)
     (queries (trace (run o n m (listConversations config)))) ->
  returned (run o n m (listConversations config))
  = inr (mkConversations [] (Some login_message)) /\
  login_message <> "" /\
  forall args,
    returned (run o n m (callTool config "messenger_list_conversations" args))
    = inr (mkCallToolResult
             [mkText "text" (OutConversations (mkConversations [] (Some login_message)))]).
Proof.
  intros Hin.
  pose proof (wpt_run o _ _ _ (listConversations_spec config m) n el Hin) as Hr.
  split; [exact Hr|]. split; [discriminate|].
  intros args. unfold callTool, tool_switch. simpl String.eqb. cbv iota.
  rewrite run_try_catch, !run_mbind. unfold and_then, or_else.
  rewrite Hr. reflexivity.
Qed.

Lemma listConversations_login_required_witness :
  returned (run (engine never logged_out [] messenger_home) 0 ready
              (listConversations default_config))
  = inr (mkConversations [] (Some login_message)).
Proof.
  refine (proj1 (listConversations_login_required default_config
                   (engine never logged_out [] messenger_home) 0 ready 5 _)).
  simpl. left. reflexivity.
Defined.

Lemma conversation_names_length (rows : list DomRow) :
  length (conversation_names rows) <= 20.
Proof.
  unfold conversation_names.
  etransitivity; [apply List.filter_length_le|].
  rewrite length_map, length_take. lia.
Qed.

Lemma conversation_names_non_empty (rows : list DomRow) :
  Forall (fun name => name <> "") (conversation_names rows).
Proof.
  unfold conversation_names. apply List.Forall_forall. intros name Hin.
  apply List.filter_In in Hin. destruct Hin as [_ Hne].
  unfold non_empty in Hne. apply negb_true_iff, String.eqb_neq in Hne. exact Hne.
Qed.

(** C10: [listConversations] always returns, and never with more than 20
    names: the sidebar rows are cut to the first 20 before the names are
    read, and the empty names are dropped. *)
Theorem listConversations_at_most_20
    (config : Config) (o : Oracle) (n : nat) (m : BrowserManager) :
  exists r,
    returned (run o n m (listConversations config)) = inr r /\
    length (conversations r) <= 20 /\
    Forall (fun name => name <> "") (conversations r).
Proof.
  assert (W : wp (listConversations config)
                (fun r => length (conversations r) <= 20 /\
                          Forall (fun name => name <> "") (conversations r))
                (fun _ => False)).
  { unfold listConversations. apply caught_wp. apply wp_bind.
    eapply wp_weaken;
      [ | | apply (caught_never_throws _ _ : never_throws (ensureMessengerOpen config)) ].
    - intros st _. destruct (negb (success st)); [simpl; split; [lia | constructor]|].
      apply wp_bind. apply wp_any; [|simpl; split; [lia | constructor]].
      intros p. simpl. intros [e|rows]; simpl; [split; [lia | constructor]|].
      split; [apply conversation_names_length | apply conversation_names_non_empty].
    - intros x []. }
  pose proof (wp_run o _ _ _ W n m) as H.
  destruct (returned (run o n m (listConversations config))) as [x|r];
    [contradiction | eauto].
Qed.

Lemma rejections_app (tr1 tr2 : list Event) :
  rejections (tr1 ++ tr2) = (rejections tr1 ++ rejections tr2)%list.
Proof. unfold rejections. apply omap_app. Qed.

Lemma selectors_distinct :
  option_selector <> login_selector /\
  SELECTORS_searchInput <> login_selector /\
  SELECTORS_messageInput <> login_selector /\
  SELECTORS_searchInput <> option_selector /\
  SELECTORS_messageInput <> option_selector /\
  SELECTORS_searchInput <> SELECTORS_messageInput.
Proof. repeat split; intros H; vm_compute in H; discriminate H. Qed.

Lemma prefix_refl (s : string) : String.prefix s s = true.
Proof.
  induction s as [|c s IH]; simpl; [reflexivity|].
  destruct (ascii_dec c c); [exact IH | contradiction].
Qed.

Lemma includes_append (a b : string) : includes (a +:+ b) b = true.
Proof.
  induction a as [|c a IH]; simpl.
  - destruct b; simpl; [reflexivity|].
    destruct (ascii_dec a a); [|contradiction]. rewrite prefix_refl. reflexivity.
  - rewrite IH. apply orb_true_r.
Qed.

(** One leaf of the exploration of [sendMessage]: the trace is what
    [ensureMessengerOpen] left, followed by known events. *)
Ltac from_prefix Hsel H := apply Hsel in H; exfalso; congruence.

Ltac pick H :=
  repeat destruct H as [H|H]; try contradiction; try (exfalso; congruence).

Ltac send_leaf_none Hsel :=
  let Hin := fresh "Hin" in
  intros Hin; apply in_app_or in Hin; destruct Hin as [Hin|Hin];
  [ from_prefix Hsel Hin
  | pick Hin;
    (split; [reflexivity|]);
    eexists; (split; [apply in_or_app; right; simpl; eauto | reflexivity]) ].

Ltac send_leaf_some Hsel :=
  let H1 := fresh "H1" in
  let H2 := fresh "H2" in
  let Hrej := fresh "Hrej" in
  intros ?first ?input H1 H2 Hrej;
  apply app_eq_nil in Hrej; destruct Hrej as [_ Hrej];
  first
    [ discriminate Hrej
    | apply in_app_or in H1; destruct H1 as [H1|H1];
      [ from_prefix Hsel H1 |];
      apply in_app_or in H2; destruct H2 as [H2|H2];
      [ from_prefix Hsel H2 |];
      pick H1; pick H2;
      injection H1 as <-; injection H2 as <-;
      (split; [reflexivity|]);
      eexists; eexists (calls _ ++ [_; _; _; _; _])%list;
      rewrite <- app_assoc; reflexivity ].

Ltac send_leaf Ht Hsel :=
  unfold send_post;
  rewrite queries_app, calls_app, rejections_app, List.filter_app, Ht;
  simpl;
  destruct selectors_distinct as (D1 & D2 & D3 & D4 & D5 & D6);
  split; [ send_leaf_none Hsel | send_leaf_some Hsel ].

Lemma sendMessage_spec (config : Config) (name message : JSValue) (m : BrowserManager) :
  wpt (sendMessage config name message) m
    (fun tr m' res => send_post name message tr res).
Proof.
  unfold sendMessage. apply wpt_try_catch. apply wpt_bind.
  eapply wpt_weaken; [|apply ensureMessengerOpen_spec].
  intros tr1 m1 res (Ht & Hsel & st & -> & Hlogin & Hpage).
  destruct (success st) eqn:Hs; cbv beta iota; unfold negb.
  - destruct (Hpage eq_refl) as [p Hp]. clear Hpage Hlogin.
    apply wpt_bind. unfold openConversation. apply wpt_try_catch.
    apply (the_page_ready config "$" m1 p _ _ Hp).
    repeat (simpl; first [rewrite Hp | branch]); simpl;
      rewrite ?app_nil_r, <- ?app_assoc; simpl;
      send_leaf Ht Hsel.
  - simpl. rewrite app_nil_r.
    destruct selectors_distinct as (D1 & _).
    split.
    + intros Hin. apply Hsel in Hin. exfalso; congruence.
    + intros first input Hin. apply Hsel in Hin. exfalso; congruence.
Qed.

(** C6, as stated, fails: the search for "Bob" lists Alice only, so no
    result matches the name; [sendMessage] takes the first result without
    looking at it, fills in the message, presses Enter and reports
    success. *)
Lemma other_conversation_is_messaged :
  ~ (forall (config : Config) (o : Oracle) (n : nat) (m : BrowserManager)
            (name : string) (message : JSValue),
        (forall k p first,
            answer o k (PageQuery p (JStr option_selector)) = inr (Some first) ->
            forall k' t,
              answer o k' (ElementTextContent first) = inr (Some t) ->
              includes t name = false) ->
        (exists err,
            returned (run o n m (sendMessage config (JStr name) message))
            = inr (mkStatus false (Some err)) /\
            includes err name = true) /\
        (forall p,
            ~ In (CAwait (KeyboardPress p "Enter"))
                 (calls (trace (run o n m (sendMessage config (JStr name) message)))))).
Proof.
  intros H.
  destruct (H default_config alice_listed 0 ready "Bob" (JStr "hi")) as [[err [Hr _]] _].
  - intros k p first Hq k' t Ht.
    vm_compute in Hq. injection Hq as <-.
    vm_compute in Ht. injection Ht as <-.
    reflexivity.
  - vm_compute in Hr. discriminate Hr.
Qed.

(** C6, amended: when the search shows no result at all (the lookup of the
    first option finds nothing), [sendMessage] returns an error, and the
    only typing or key press of the whole call is the name typed into the
    search input: nothing is typed into the message input and Enter is not
    pressed.  For a name that is a string the error is "Could not find
    conversation: <name>", which contains the name. *)
Theorem sendMessage_no_result
    (config : Config) (o : Oracle) (n : nat) (m : BrowserManager)
    (conversationName message : JSValue) :
  In (JStr option_selector, None)
     (queries (trace (run o n m (sendMessage config conversationName message)))) ->
  exists err input,
    returned (run o n m (sendMessage config conversationName message))
    = inr (mkStatus false (Some err)) /\
    (forall name, conversationName = JStr name ->
                  err = "Could not find conversation: " +:+ name /\
                  includes err name = true) /\
    In (JStr SELECTORS_searchInput, Some input)
       (queries (trace (run o n m (sendMessage config conversationName message)))) /\
    List.filter types_or_presses
      (calls (trace (run o n m (sendMessage config conversationName message))))
    = [CAwait (ElementFill input conversationName)].
Proof.
  intros Hin.
  destruct (wpt_run o _ _ _ (sendMessage_spec config conversationName message m) n)
    as [Hnone _].
  destruct (Hnone Hin) as (Hr & input & Hq & Hf).
  exists ("Could not find conversation: " +:+ js_to_string conversationName), input.
  split; [exact Hr|].
  split; [intros name ->; split; [reflexivity | apply includes_append]|].
  split; assumption.
Qed.

Lemma sendMessage_no_result_witness :
  exists err input,
    returned (run (engine never no_search_result [] messenger_home) 0 ready
                (sendMessage default_config (JStr "Bob") (JStr "hi")))
    = inr (mkStatus false (Some err)) /\
    err = "Could not find conversation: Bob" /\
    List.filter types_or_presses
      (calls (trace (run (engine never no_search_result [] messenger_home) 0 ready
                       (sendMessage default_config (JStr "Bob") (JStr "hi")))))
    = [CAwait (ElementFill input (JStr "Bob"))].
Proof.
  destruct (sendMessage_no_result default_config
              (engine never no_search_result [] messenger_home) 0 ready
              (JStr "Bob") (JStr "hi"))
    as (err & input & H1 & H2 & _ & H5).
  - simpl. right. right. left. reflexivity.
  - exists err, input. split; [exact H1|].
    split; [exact (proj1 (H2 "Bob" eq_refl)) | exact H5].
Defined.

(** C5, as stated, fails: with a search result but no message input on the
    page, [sendMessage] clicks the result and then stops with "Could not
    find message input"; nothing is typed into a message input and Enter is
    not pressed. *)
Lemma search_hit_without_message_input :
  ~ (forall (config : Config) (o : Oracle) (n : nat) (m : BrowserManager)
            (conversationName message : JSValue) (first : ElementHandle),
        In (JStr option_selector, Some first)
           (queries (trace (run o n m (sendMessage config conversationName message)))) ->
        exists input p,
          in_order (CAwait (ElementClick first))
                   (CAwait (ElementFill input message))
                   (CAwait (KeyboardPress p "Enter"))
                   (calls (trace (run o n m
                                    (sendMessage config conversationName message))))).
Proof.
  intros H.
  destruct (H default_config (engine never no_message_input [] messenger_home) 0 ready
              (JStr "Bob") (JStr "hi") 7) as (input & p & l0 & l1 & l2 & l3 & Heq).
  - simpl. right. right. left. reflexivity.
  - assert (Hin : In (CAwait (KeyboardPress p "Enter"))
                    (calls (trace (run (engine never no_message_input [] messenger_home)
                                     0 ready
                                     (sendMessage default_config (JStr "Bob") (JStr "hi")))))).
    { rewrite Heq. apply in_or_app. right. right.
      apply in_or_app. right. right.
      apply in_or_app. right. left. reflexivity. }
    clear Heq. vm_compute in Hin.
    repeat destruct Hin as [Hin|Hin]; try discriminate Hin. exact Hin.
Qed.

(** C5, amended: when the search shows a first result, the message input is
    found and the engine rejects no call, [sendMessage] succeeds and its
    calls end with: click the first result, wait, look up the message
    input, click it, fill it with the message as given, press Enter, wait;
    in exactly that order. *)
Theorem sendMessage_sends
    (config : Config) (o : Oracle) (n : nat) (m : BrowserManager)
    (conversationName message : JSValue) (first input : ElementHandle) :
  In (JStr option_selector, Some first)
     (queries (trace (run o n m (sendMessage config conversationName message)))) ->
  In (JStr SELECTORS_messageInput, Some input)
     (queries (trace (run o n m (sendMessage config conversationName message)))) ->
  rejections (trace (run o n m (sendMessage config conversationName message))) = [] ->
  returned (run o n m (sendMessage config conversationName message))
  = inr (mkStatus true None) /\
  exists p pre,
    calls (trace (run o n m (sendMessage config conversationName message)))
    = (pre ++ [CAwait (ElementClick first);
               CAwait (PageWaitForTimeout p 500);
               CAwait (PageQuery p (JStr SELECTORS_messageInput));
               CAwait (ElementClick input);
               CAwait (ElementFill input message);
               CAwait (KeyboardPress p "Enter");
               CAwait (PageWaitForTimeout p 500)])%list.
Proof.
  intros H1 H2 H3.
  destruct (wpt_run o _ _ _ (sendMessage_spec config conversationName message m) n)
    as [_ Hsome].
  exact (Hsome first input H1 H2 H3).
Qed.

Lemma sendMessage_sends_witness :
  returned (run (engine never logged_in [] messenger_home) 0 ready
              (sendMessage default_config (JStr "Bob") (JStr "hi")))
  = inr (mkStatus true None).
Proof.
  refine (proj1 (sendMessage_sends default_config
                   (engine never logged_in [] messenger_home) 0 ready
                   (JStr "Bob") (JStr "hi") 7 7 _ _ _)).
  - simpl. right. right. left. reflexivity.
  - simpl. right. right. right. left. reflexivity.
  - reflexivity.
Defined.

(** ** Calls in flight *)

(** A page-mutating tool called with a payload object does not finish in
    its first synchronous stretch: it issues an awaited call to the engine
    and is suspended there, whatever the store holds. *)
Lemma arrival_issues_a_call (config : Config) (o : Oracle) (call n : nat)
    (m : BrowserManager) (name : string) (obj : gmap string JSValue) :
  In name page_mutating ->
  exists a k pre,
    adv_task (advance o call n m (callTool config name (Some obj))) = Suspended a k /\
    adv_log (advance o call n m (callTool config name (Some obj)))
    = (pre ++ [Issued call a])%list /\
    Forall (is_direct call) pre.
Proof.
  unfold page_mutating. intros H.
  destruct m as [b c [| |p]];
    repeat destruct H as [<-|H]; try contradiction;
    unfold callTool, tool_switch; simpl String.eqb; cbv iota; simpl;
    try match goal with
        | |- context [includes ?u ?s] => destruct (includes u s)
        end; simpl;
    match goal with
    | |- exists a k pre, Suspended ?a0 ?k0 = _ /\ _ => exists a0, k0
    end;
    first
      [ exists []; split; [reflexivity|]; split; [reflexivity|]; constructor
      | eexists [_]; split; [reflexivity|]; split; [reflexivity|];
        constructor; [eexists; reflexivity | constructor] ].
Qed.

Lemma direct_not_completed (call c : nat) (pre : list Entry) :
  Forall (is_direct call) pre -> ~ In (Completed c) pre.
Proof.
  intros HF Hin. rewrite Forall_forall in HF.
  apply list_elem_of_In in Hin. destruct (HF _ Hin) as [a Ha]. discriminate Ha.
Qed.

(** C2, as stated, fails: [web_navigate] and then [web_click] arrive, the
    click resolves first.  The click is issued, resolved and completed
    while the navigation is still awaiting its [goto]. *)
Lemma concurrent_calls_interleave :
  ~ (forall (config : Config) (o : Oracle) (m : BrowserManager)
            (name1 : string) (args1 : ToolArgs) (name2 : string) (args2 : ToolArgs)
            (order : list nat),
        In name1 page_mutating -> In name2 page_mutating ->
        serial false (log (two_calls config o m name1 args1 name2 args2 order)) = true).
Proof.
  intros H.
  specialize (H default_config (engine never logged_in [] messenger_home) ready
                "web_navigate" (Some {["url" := JStr "https://example.org"]})
                "web_click" (Some {["selector" := JStr "#ok"]})
                [1; 0; 0; 0]).
  assert (H1 : In "web_navigate" page_mutating) by (simpl; tauto).
  assert (H2 : In "web_click" page_mutating) by (simpl; tauto).
  specialize (H H1 H2). vm_compute in H. discriminate H.
Qed.

(** C2, amended: nothing serializes the calls.  When two page-mutating
    calls with payload objects arrive one behind the other, each handler
    starts on arrival: both issue an awaited call to the engine, the first
    call's before the second's, and both are suspended there; the second
    call has begun its browser interaction and the first has not
    completed. *)
Theorem second_call_starts_at_once
    (config : Config) (o : Oracle) (m : BrowserManager)
    (name1 : string) (obj1 : gmap string JSValue)
    (name2 : string) (obj2 : gmap string JSValue) :
  In name1 page_mutating -> In name2 page_mutating ->
  let s := two_calls config o m name1 (Some obj1) name2 (Some obj2) [] in
  exists a1 k1 a2 k2 l1 l2,
    tasks s = [Suspended a1 k1; Suspended a2 k2] /\
    log s = (l1 ++ Issued 0 a1 :: l2 ++ [Issued 1 a2])%list /\
    ~ In (Completed 0) (log s).
Proof.
  intros H1 H2 s. subst s. unfold two_calls, resolve_all, arrive, idle. simpl.
  destruct (arrival_issues_a_call config o 0 0 m name1 obj1 H1)
    as (a1 & k1 & l1 & Ht1 & Hl1 & Hd1).
  set (first := advance o 0 0 m (callTool config name1 (Some obj1))) in *.
  destruct (arrival_issues_a_call config o 1 (adv_clock first) (adv_store first)
              name2 obj2 H2)
    as (a2 & k2 & l2 & Ht2 & Hl2 & Hd2).
  rewrite Ht1, Ht2, Hl1, Hl2.
  exists a1, k1, a2, k2, l1, l2.
  split; [reflexivity|]. split; [rewrite <- app_assoc; reflexivity|].
  intros Hin.
  apply in_app_or in Hin. destruct Hin as [Hin|Hin];
    apply in_app_or in Hin; destruct Hin as [Hin|Hin].
  - exact (direct_not_completed 0 0 l1 Hd1 Hin).
  - destruct Hin as [Hin|[]]. discriminate Hin.
  - exact (direct_not_completed 1 0 l2 Hd2 Hin).
  - destruct Hin as [Hin|[]]. discriminate Hin.
Qed.

Lemma second_call_starts_at_once_witness :
  exists a1 k1 a2 k2 l1 l2,
    tasks (two_calls default_config (engine never logged_in [] messenger_home) ready
             "web_navigate" (Some {["url" := JStr "https://example.org"]})
             "web_click" (Some {["selector" := JStr "#ok"]}) [])
    = [Suspended a1 k1; Suspended a2 k2] /\
    log (two_calls default_config (engine never logged_in [] messenger_home) ready
           "web_navigate" (Some {["url" := JStr "https://example.org"]})
           "web_click" (Some {["selector" := JStr "#ok"]}) [])
    = (l1 ++ Issued 0 a1 :: l2 ++ [Issued 1 a2])%list.
Proof.
  destruct (second_call_starts_at_once default_config
              (engine never logged_in [] messenger_home) ready
              "web_navigate" {["url" := JStr "https://example.org"]}
              "web_click" {["selector" := JStr "#ok"]})
    as (a1 & k1 & a2 & k2 & l1 & l2 & Ht & Hl & _).
  - simpl. tauto.
  - simpl. tauto.
  - exists a1, k1, a2, k2, l1, l2. split; [exact Ht | exact Hl].
Defined.

(** ** The session, the dispatcher and the shapes of results *)


Lemma close_spec (m : BrowserManager) :
  wpt close m
    (fun tr m' res =>
       match res with
       | inr _ =>
           m' = browserManager /\
           calls tr = (match context m with
                       | Some c => [CAwait (ContextClose c)]
                       | None => []
                       end ++
                       match browser m with
                       | Some b => [CAwait (BrowserClose b)]
                       | None => []
                       end)%list
       | inl _ => m' = m
       end).
Proof.
  unfold close. apply wpt_get.
  destruct m as [[b|] [c|] pg]; simpl;
    repeat (try intros [e|[]]; simpl); auto.
Qed.

(** X1: when [close] returns, the three fields are null again, and what was
    closed is the context, if there was one, and then the browser, if
    there was one; on a manager that holds neither, [close] calls nothing. *)
Theorem close_resets (o : Oracle) (n : nat) (m : BrowserManager) :
  returned (run o n m close) = inr tt ->
  final (run o n m close) = browserManager /\
  calls (trace (run o n m close))
  = (match context m with
     | Some c => [CAwait (ContextClose c)]
     | None => []
     end ++
     match browser m with
     | Some b => [CAwait (BrowserClose b)]
     | None => []
     end)%list.
Proof.
  intros H. pose proof (wpt_run o _ _ _ (close_spec m) n) as S.
  cbv beta in S. rewrite H in S. exact S.
Qed.

Lemma close_resets_witness :
  final (run (engine never logged_in [] messenger_home) 0 ready close) = browserManager /\
  calls (trace (run (engine never logged_in [] messenger_home) 0 ready close))
  = [CAwait (ContextClose 2); CAwait (BrowserClose 1)].
Proof.
  exact (close_resets (engine never logged_in [] messenger_home) 0 ready eq_refl).
Defined.

(** X2: when [close] fails (the context or the browser refuses to close),
    no field is reset: the manager is exactly as before, still initialized
    if it was, and a following [getPage] hands back the old page without
    calling the engine. *)
Theorem close_failure_keeps_session
    (config : Config) (o : Oracle) (n : nat) (m : BrowserManager) (x : Exn) :
  returned (run o n m close) = inl x ->
  final (run o n m close) = m /\
  forall p o' n',
    page m = Holds p ->
    run o' n' (final (run o n m close)) (getPage config) = mkOutcome m (inr (Holds p)) [].
Proof.
  intros H. pose proof (wpt_run o _ _ _ (close_spec m) n) as S.
  cbv beta in S. rewrite H in S. split; [exact S|].
  intros p o' n' Hp. rewrite S. apply getPage_ready. exact Hp.
Qed.

Lemma close_failure_keeps_session_witness :
  final (run (engine context_close_fails logged_in [] messenger_home) 0 ready close) = ready.
Proof.
  exact (proj1 (close_failure_keeps_session default_config
                  (engine context_close_fails logged_in [] messenger_home) 0 ready
                  (Thrown engine_failure) eq_refl)).
Defined.

(** X3: [close] followed by [getPage] starts over: when the close
    succeeds, the next thing the engine is asked is to launch. *)
Theorem close_then_getPage_relaunches
    (config : Config) (o : Oracle) (n : nat) (m : BrowserManager) :
  returned (run o n m close) = inr tt ->
  exists rest,
    calls (trace (run o n m (close;; getPage config)))
    = (calls (trace (run o n m close))
       ++ CAwait (ChromiumLaunch (channel config) (headless config)) :: rest)%list.
Proof.
  intros H. pose proof (wpt_run o _ _ _ (close_spec m) n) as S.
  cbv beta in S. rewrite H in S. destruct S as [Hf _].
  rewrite run_mbind. unfold and_then. rewrite H. cbn [trace final returned].
  rewrite Hf, calls_app. unfold getPage, initialize. simpl.
  eexists. reflexivity.
Qed.

Lemma close_then_getPage_relaunches_witness :
  exists rest,
    calls (trace (run (engine never logged_in [] messenger_home) 0 ready
                    (close;; getPage default_config)))
    = (calls (trace (run (engine never logged_in [] messenger_home) 0 ready close))
       ++ CAwait (ChromiumLaunch (channel default_config) (headless default_config))
       :: rest)%list.
Proof.
  exact (close_then_getPage_relaunches default_config
           (engine never logged_in [] messenger_home) 0 ready eq_refl).
Defined.

(** What a successful [initialize] leaves and how it ends. *)
Lemma initialize_success_spec (config : Config) (m : BrowserManager) :
  wpt (initialize config) m
    (fun tr m' res =>
       res = inr tt ->
       exists b c p pre,
         m' = mkManager (Some b) (Some c) (Holds p) /\
         tr = (pre ++ [ESync (PageSetDefaultTimeout p (timeouts_action config)) tt;
                       ESync (PageSetDefaultNavigationTimeout p
                                (timeouts_navigation config)) tt])%list).
Proof.
  unfold initialize. explore;
    try match goal with H : inl _ = inr _ |- _ => discriminate H end;
    repeat match goal with u : unit |- _ => destruct u end;
    do 3 eexists;
    first [ eexists [_; _; _]; split; reflexivity
          | eexists [_; _; _; _]; split; reflexivity ].
Qed.

(** X4: a successful [initialize] fills the three fields, and its last two
    calls set the action timeout and the navigation timeout on the page
    now in the slot. *)
Theorem initialize_success
    (config : Config) (o : Oracle) (n : nat) (m : BrowserManager) :
  returned (run o n m (initialize config)) = inr tt ->
  exists b c p pre,
    final (run o n m (initialize config)) = mkManager (Some b) (Some c) (Holds p) /\
    trace (run o n m (initialize config))
    = (pre ++ [ESync (PageSetDefaultTimeout p (timeouts_action config)) tt;
               ESync (PageSetDefaultNavigationTimeout p (timeouts_navigation config)) tt])%list.
Proof.
  intros H. exact (wpt_run o _ _ _ (initialize_success_spec config m) n H).
Qed.

Lemma initialize_success_witness :
  exists b c p pre,
    final (run (engine never logged_in [] messenger_home) 0 browserManager
             (initialize default_config))
    = mkManager (Some b) (Some c) (Holds p) /\
    trace (run (engine never logged_in [] messenger_home) 0 browserManager
             (initialize default_config))
    = (pre ++ [ESync (PageSetDefaultTimeout p (timeouts_action default_config)) tt;
               ESync (PageSetDefaultNavigationTimeout p
                        (timeouts_navigation default_config)) tt])%list.
Proof.
  exact (initialize_success default_config
           (engine never logged_in [] messenger_home) 0 browserManager eq_refl).
Defined.

(** None of the listed calls is the one looked for. *)
Ltac absent :=
  let Hin := fresh "Hin" in
  intros Hin; simpl in Hin;
  repeat destruct Hin as [Hin|Hin]; first [discriminate Hin | contradiction].

(** With a profile directory configured, [initialize] still launches the
    engine first and then launches a persistent context of its own; it
    never opens a context on the launched browser, and when the persistent
    context already has a page open it takes the first one and opens none. *)
Lemma initialize_persistent_spec (config : Config) (dir : string) (m : BrowserManager) :
  userDataDir config = Some dir -> dir <> "" ->
  wpt (initialize config) m
    (fun tr m' res =>
       (forall b, ~ In (CAwait (BrowserNewContext b)) (calls tr)) /\
       (exists r rest,
           tr = EAwait (ChromiumLaunch (channel config) (headless config)) r :: rest /\
           forall b, r = inr b ->
             exists r2 rest2,
               rest = EAwait (ChromiumLaunchPersistentContext dir (channel config)
                                (headless config)) r2 :: rest2) /\
       (forall p0 others,
           In (p0 :: others) (page_lists tr) ->
           (forall c, ~ In (CAwait (ContextNewPage c)) (calls tr)) /\
           (res = inr tt -> page m' = Holds p0))).
Proof.
  intros Hdir Hne. unfold initialize. rewrite Hdir.
  apply String.eqb_neq in Hne. rewrite Hne.
  explore;
    (split; [intros b; absent|]);
    (split; [eexists; eexists; split; [reflexivity|];
             intros b Hb; first [discriminate Hb | eexists; eexists; reflexivity]|]);
    intros p0 others Hin; simpl in Hin;
    repeat destruct Hin as [Hin|Hin]; try contradiction; try discriminate Hin;
    injection Hin as <- <-;
    (split; [intros c; absent | intros _; reflexivity]).
Qed.

(** X5: with a profile directory configured, [initialize] launches the
    engine and then a persistent context on that directory, never a context
    on the launched browser; when the persistent context already lists a
    page, the first listed page becomes the active page and no new page is
    opened. *)
Theorem initialize_persistent
    (config : Config) (dir : string) (o : Oracle) (n : nat) (m : BrowserManager) :
  userDataDir config = Some dir -> dir <> "" ->
  let out := run o n m (initialize config) in
  (forall b, ~ In (CAwait (BrowserNewContext b)) (calls (trace out))) /\
  (exists r rest,
      trace out = EAwait (ChromiumLaunch (channel config) (headless config)) r :: rest /\
      forall b, r = inr b ->
        exists r2 rest2,
          rest = EAwait (ChromiumLaunchPersistentContext dir (channel config)
                           (headless config)) r2 :: rest2) /\
  (forall p0 others,
      In (p0 :: others) (page_lists (trace out)) ->
      (forall c, ~ In (CAwait (ContextNewPage c)) (calls (trace out))) /\
      (returned out = inr tt -> page (final out) = Holds p0)).
Proof.
  intros Hdir Hne out.
  exact (wpt_run o _ _ _ (initialize_persistent_spec config dir m Hdir Hne) n).
Qed.

Lemma initialize_persistent_witness :
  page (final (run (engine never logged_in [] messenger_home) 0 browserManager
                 (initialize profile_config))) = Holds 3.
Proof.
  assert (Hne : "C:/Users/User/Edge" <> "") by discriminate.
  destruct (initialize_persistent profile_config "C:/Users/User/Edge"
              (engine never logged_in [] messenger_home) 0 browserManager eq_refl Hne)
    as (_ & _ & H).
  destruct (H 3 []) as [_ Hp].
  - simpl. left. reflexivity.
  - exact (Hp eq_refl).
Defined.

(** X6: with a page active, [switchTab] on an integer index inside
    [0, pages.length) makes [pages[index]] the active page, sets both
    default timeouts on it as its last two calls, and returns success;
    the browser and context handles are untouched. *)
Theorem switchTab_valid_index
    (config : Config) (o : Oracle) (n : nat) (m : BrowserManager) (p : PageRef)
    (index : Z) (pages : list PageRef) :
  page m = Holds p ->
  last (page_lists (trace (run o n m (switchTab config (NInt index))))) = Some pages ->
  (0 <= index < Z.of_nat (length pages))%Z ->
  exists q pre,
    pages !! Z.to_nat index = Some q /\
    returned (run o n m (switchTab config (NInt index))) = inr (mkStatus true None) /\
    final (run o n m (switchTab config (NInt index))) = set_page (Holds q) m /\
    calls (trace (run o n m (switchTab config (NInt index))))
    = (pre ++ [CSync (PageSetDefaultTimeout q (timeouts_action config));
               CSync (PageSetDefaultNavigationTimeout q (timeouts_navigation config))])%list.
Proof.
  intros Hp.
  cut (wpt (switchTab config (NInt index)) m
         (fun tr m' res =>
            last (page_lists tr) = Some pages ->
            (0 <= index < Z.of_nat (length pages))%Z ->
            exists q pre,
              pages !! Z.to_nat index = Some q /\
              res = inr (mkStatus true None) /\
              m' = set_page (Holds q) m /\
              calls tr
              = (pre ++ [CSync (PageSetDefaultTimeout q (timeouts_action config));
                         CSync (PageSetDefaultNavigationTimeout q
                                  (timeouts_navigation config))])%list)).
  { intros W. exact (wpt_run o _ _ _ W n). }
  unfold switchTab. apply wpt_try_catch.
  apply (the_page_ready config "context" m p _ _ Hp).
  simpl. intros ctx listed.
  destruct ((index <? 0)%Z || (index >=? Z.of_nat (length listed))%Z) eqn:Hguard; simpl.
  - intros [= <-] Hidx. exfalso.
    apply orb_true_iff in Hguard. destruct Hguard as [H|H].
    + apply Z.ltb_lt in H. lia.
    + rewrite Z.geb_leb in H. apply Z.leb_le in H. lia.
  - apply orb_false_iff in Hguard. destruct Hguard as [Hneg Hlen].
    rewrite Hneg.
    destruct (listed !! Z.to_nat index) as [q|] eqn:Hq; simpl.
    + intros [] []. simpl. intros [= <-] Hidx.
      exists q, [CSync (PageContext p); CSync (ContextPages ctx)].
      rewrite Hq. repeat split; reflexivity.
    + intros [= <-] Hidx. exfalso.
      apply lookup_ge_None in Hq. lia.
Qed.

Lemma switchTab_valid_index_witness :
  returned (run (engine never logged_in [] messenger_home) 0 ready
              (switchTab default_config (NInt 0)))
  = inr (mkStatus true None).
Proof.
  destruct (switchTab_valid_index default_config
              (engine never logged_in [] messenger_home) 0 ready 3 0 [3])
    as (q & pre & _ & H & _).
  - reflexivity.
  - reflexivity.
  - simpl. lia.
  - exact H.
Defined.

(** ** The manager is left alone *)

Lemma keeps_ret {A : Type} (m : BrowserManager) (a : A) : keeps m (Ret a).
Proof. reflexivity. Qed.

Lemma keeps_throw {A : Type} (m : BrowserManager) (x : Exn) : keeps m (Throw x : Prog A).
Proof. reflexivity. Qed.

Lemma keeps_await (m : BrowserManager) (a : AsyncAction) : keeps m (await a).
Proof. unfold keeps. simpl. intros [e|v]; reflexivity. Qed.

Lemma keeps_sync (m : BrowserManager) (a : SyncAction) : keeps m (sync a).
Proof. unfold keeps. simpl. intros r. reflexivity. Qed.

Lemma keeps_arg (m : BrowserManager) (args : ToolArgs) (f : string) : keeps m (arg args f).
Proof. destruct args; reflexivity. Qed.

Lemma keeps_JSON_stringify (m : BrowserManager) (result : ToolOutput) :
  keeps m (JSON_stringify result).
Proof.
  destruct result; try reflexivity.
  unfold JSON_stringify. destruct (js_result r) as [v|]; [|reflexivity].
  destruct (stringify_error v); reflexivity.
Qed.

Lemma keeps_bind {A B : Type} (m : BrowserManager) (p : Prog A) (f : A -> Prog B) :
  keeps m p -> (forall a, keeps m (f a)) -> keeps m (p ≫= f).
Proof.
  unfold keeps. intros Hp Hf. apply wpt_bind.
  eapply wpt_weaken; [|exact Hp].
  intros tr m' [x|a] ->; [reflexivity | apply Hf].
Qed.

Lemma keeps_try_catch {A : Type} (m : BrowserManager) (p : Prog A) (h : Exn -> Prog A) :
  keeps m p -> (forall x, keeps m (h x)) -> keeps m (try_catch p h).
Proof.
  unfold keeps. intros Hp Hh. apply wpt_try_catch.
  eapply wpt_weaken; [|exact Hp].
  intros tr m' [x|a] ->; [apply Hh | reflexivity].
Qed.

Lemma keeps_the_page (config : Config) (prop : string) (m : BrowserManager) (p : PageRef) :
  page m = Holds p -> keeps m (the_page config prop).
Proof.
  intros Hp. unfold keeps, the_page, getPage.
  apply wpt_bind. apply wpt_get. rewrite Hp. simpl.
  rewrite Hp. reflexivity.
Qed.

(** Walk through a handler: every piece leaves the store alone. *)
Ltac keeps_step Hp :=
  first
    [ apply keeps_ret
    | apply keeps_throw
    | apply keeps_await
    | apply keeps_sync
    | apply keeps_arg
    | apply (keeps_the_page _ _ _ _ Hp)
    | apply keeps_try_catch; [|intros ?]
    | apply keeps_bind; [|intros ?]
    | match goal with
      | |- keeps _ (if ?b then _ else _) => destruct b
      | |- keeps _ (match ?x with _ => _ end) => destruct x
      end ].

Ltac keeps_all Hp := cbv zeta; repeat keeps_step Hp.

Lemma ensureMessengerOpen_keeps (config : Config) (m : BrowserManager) (p : PageRef) :
  page m = Holds p -> keeps m (ensureMessengerOpen config).
Proof. intros Hp. unfold ensureMessengerOpen. keeps_all Hp. Qed.

Lemma openConversation_keeps (config : Config) (m : BrowserManager) (p : PageRef)
    (name : JSValue) :
  page m = Holds p -> keeps m (openConversation config name).
Proof. intros Hp. unfold openConversation. keeps_all Hp. Qed.

(** X7: once a page is active, no tool but [browser_close] changes the
    manager: whatever the payload and whatever the engine answers, the
    dispatcher leaves the browser, context and page fields as they were. *)
Theorem tools_keep_manager
    (config : Config) (o : Oracle) (n : nat) (m : BrowserManager) (p : PageRef)
    (name : string) (args : ToolArgs) :
  page m = Holds p -> name <> "browser_close" ->
  final (run o n m (callTool config name args)) = m.
Proof.
  intros Hp Hclose.
  cut (keeps m (callTool config name args)).
  { intros W. exact (wpt_run o _ _ _ W n). }
  pose proof (ensureMessengerOpen_keeps config m p Hp) as He.
  pose proof (fun nm => openConversation_keeps config m p nm Hp) as Ho.
  apply String.eqb_neq in Hclose.
  unfold callTool, tool_switch. rewrite Hclose.
  apply keeps_try_catch; [|intros [e|c msg]; apply keeps_throw].
  apply keeps_bind;
    [|intros ?; apply keeps_bind; [apply keeps_JSON_stringify | intros ?; apply keeps_ret]].
  repeat match goal with
         | |- keeps _ (if ?b then _ else _) => destruct b
         end;
    unfold listConversations, searchConversation, sendMessage, readMessages, sendFile,
      getConversationInfo, navigate, screenshot, click, type, extractText, executeJs,
      waitFor, getCurrentUrl, getAccessibilitySnapshot;
    cbv zeta;
    repeat first [ exact He | apply Ho | keeps_step Hp ].
Qed.

Lemma tools_keep_manager_witness :
  final (run (engine never logged_in [] messenger_home) 0 ready
           (callTool default_config "messenger_send_message"
              (Some {["conversationName" := JStr "Bob"; "message" := JStr "hi"]})))
  = ready.
Proof.
  apply (tools_keep_manager default_config _ 0 ready 3); [reflexivity | discriminate].
Defined.

(** X8: [browser_close] does not read its payload.  The dispatcher answers
    [{success: true}] exactly when [close] returned, and the manager is
    then reset; when [close] fails, the failure leaves the dispatcher as
    the protocol error [InternalError] carrying the engine's message, and
    the manager is untouched. *)
Theorem browser_close_dispatch
    (config : Config) (o : Oracle) (n : nat) (m : BrowserManager) (args : ToolArgs) :
  let out := run o n m (callTool config "browser_close" args) in
  trace out = trace (run o n m close) /\
  match returned (run o n m close) with
  | inr _ =>
      returned out = inr (mkCallToolResult [mkText "text" (OutStatus (mkStatus true None))]) /\
      final out = browserManager
  | inl (Thrown e) =>
      returned out
      = inl (McpError InternalError ("Tool execution failed: " +:+ err_message e)) /\
      final out = m
  | inl (McpError code msg) => returned out = inl (McpError code msg) /\ final out = m
  end.
Proof.
  intros out. subst out.
  pose proof (wpt_run o _ _ _ (close_spec m) n) as S. cbv beta in S.
  unfold callTool, tool_switch. simpl String.eqb. cbv iota.
  rewrite run_try_catch, !run_mbind. unfold and_then, or_else.
  destruct (returned (run o n m close)) as [[e|code msg]|[]]; cbn [returned trace final];
    simpl; rewrite ?app_nil_r.
  - auto.
  - auto.
  - destruct S as [S _]. auto.
Qed.


(** ** Shapes of the results *)

Lemma wp_the_page {A : Type} (config : Config) (prop : string) (f : PageRef -> Prog A)
    (Q : A -> Prop) (E : Exn -> Prop) :
  (forall p, wp (f p) Q E) -> (forall x, E x) -> wp (the_page config prop ≫= f) Q E.
Proof.
  intros Hf HE. apply wp_bind. apply wp_any; assumption.
Qed.

Ltac status_leaf :=
  first [ left; split; reflexivity
        | right; split; [reflexivity | eexists; reflexivity]
        | assumption ].

Lemma click_consistent (config : Config) (selector : JSValue) :
  wp (click config selector) consistent (fun _ => False).
Proof.
  unfold click. apply caught_wp. apply wp_the_page; [|intros x; status_leaf].
  intros p. explore; status_leaf.
Qed.

Lemma type_consistent (config : Config) (selector text : JSValue) :
  wp (type config selector text) consistent (fun _ => False).
Proof.
  unfold type. apply caught_wp. apply wp_the_page; [|intros x; status_leaf].
  intros p. explore; status_leaf.
Qed.

Lemma waitFor_consistent (config : Config) (selector timeout : JSValue) :
  wp (waitFor config selector timeout) consistent (fun _ => False).
Proof.
  unfold waitFor. cbv zeta. apply caught_wp. apply wp_the_page; [|intros x; status_leaf].
  intros p. explore; status_leaf.
Qed.

Lemma switchTab_consistent (config : Config) (index : JSNumber) :
  wp (switchTab config index) consistent (fun _ => False).
Proof.
  unfold switchTab. apply caught_wp. apply wp_the_page; [|intros x; status_leaf].
  intros p. simpl. intros ctx listed.
  destruct (number_negative index || number_at_least index (length listed)); simpl.
  - status_leaf.
  - intros m0 m1. destruct (page m1) as [| |q1]; simpl; try status_leaf.
    intros [] m2. destruct (page m2) as [| |q2]; simpl; try status_leaf.
Qed.

Lemma ensureMessengerOpen_consistent (config : Config) :
  wp (ensureMessengerOpen config) consistent (fun _ => False).
Proof.
  unfold ensureMessengerOpen. apply caught_wp. apply wp_the_page.
  - intros p. explore; status_leaf.
  - intros x. status_leaf.
Qed.

Lemma openConversation_consistent (config : Config) (name : JSValue) :
  wp (openConversation config name) consistent (fun _ => False).
Proof.
  unfold openConversation. apply caught_wp. apply wp_the_page.
  - intros p. explore; status_leaf.
  - intros x. status_leaf.
Qed.

Lemma failed_status_consistent (st : StatusResult) :
  consistent st -> success st = false -> consistent (mkStatus false (error st)).
Proof.
  intros [[H _]|[_ [msg H]]] Hs; [congruence|].
  right. split; [reflexivity|]. exists msg. exact H.
Qed.

Lemma sendMessage_consistent (config : Config) (name message : JSValue) :
  wp (sendMessage config name message) consistent (fun _ => False).
Proof.
  unfold sendMessage. apply caught_wp. apply wp_bind.
  eapply wp_weaken; [ | | apply ensureMessengerOpen_consistent ]; [|intros x []].
  intros st Hst. destruct (success st) eqn:Hs; cbv beta iota; unfold negb.
  - apply wp_bind.
    eapply wp_weaken; [ | | apply openConversation_consistent ]; [|intros x []].
    intros op Hop. destruct (success op) eqn:Ho; cbv beta iota.
    + apply wp_the_page; [|intros x; status_leaf].
      intros p. explore; status_leaf.
    + exact Hop.
  - apply failed_status_consistent; assumption.
Qed.

Lemma sendFile_consistent (config : Config) (name filePath : JSValue) :
  wp (sendFile config name filePath) consistent (fun _ => False).
Proof.
  unfold sendFile. apply caught_wp. apply wp_bind.
  eapply wp_weaken; [ | | apply ensureMessengerOpen_consistent ]; [|intros x []].
  intros st Hst. destruct (success st) eqn:Hs; cbv beta iota; unfold negb.
  - apply wp_bind.
    eapply wp_weaken; [ | | apply openConversation_consistent ]; [|intros x []].
    intros op Hop. destruct (success op) eqn:Ho; cbv beta iota.
    + apply wp_the_page; [|intros x; status_leaf].
      intros p. explore; status_leaf.
    + exact Hop.
  - apply failed_status_consistent; assumption.
Qed.


Lemma returns_in {A : Type} (o : Oracle) (n : nat) (m : BrowserManager) (p : Prog A)
    (Q : A -> Prop) :
  wp p Q (fun _ => False) ->
  exists r, returned (run o n m p) = inr r /\ Q r.
Proof.
  intros W. pose proof (wp_run o _ _ _ W n m) as H.
  destruct (returned (run o n m p)) as [x|r]; [contradiction | eauto].
Qed.

(** X10: every tool that answers with a status returns normally, and its
    two fields agree: [success: true] comes without an error,
    [success: false] comes with an error string.  This holds for [click],
    [type], [waitFor], [switchTab], [ensureMessengerOpen], [sendMessage] and
    [sendFile], whatever the arguments, the manager and the engine. *)
Theorem status_results_consistent
    (config : Config) (o : Oracle) (n : nat) (m : BrowserManager)
    (a b : JSValue) (index : JSNumber) :
  (exists r, returned (run o n m (click config a)) = inr r /\ consistent r) /\
  (exists r, returned (run o n m (type config a b)) = inr r /\ consistent r) /\
  (exists r, returned (run o n m (waitFor config a b)) = inr r /\ consistent r) /\
  (exists r, returned (run o n m (switchTab config index)) = inr r /\ consistent r) /\
  (exists r, returned (run o n m (ensureMessengerOpen config)) = inr r /\ consistent r) /\
  (exists r, returned (run o n m (sendMessage config a b)) = inr r /\ consistent r) /\
  (exists r, returned (run o n m (sendFile config a b)) = inr r /\ consistent r).
Proof.
  split; [apply returns_in, click_consistent|].
  split; [apply returns_in, type_consistent|].
  split; [apply returns_in, waitFor_consistent|].
  split; [apply returns_in, switchTab_consistent|].
  split; [apply returns_in, ensureMessengerOpen_consistent|].
  split; [apply returns_in, sendMessage_consistent|].
  apply returns_in, sendFile_consistent.
Qed.

Ltac agrees_leaf :=
  first [ left; split; [reflexivity|]; split; [eexists; reflexivity | reflexivity]
        | right; split; [reflexivity|]; split; [reflexivity | eexists; reflexivity] ].

Lemma navigate_agrees (config : Config) (url : JSValue) :
  wp (navigate config url)
    (fun r => agrees (nav_success r) (nav_title r) (nav_error r)) (fun _ => False).
Proof.
  unfold navigate. apply caught_wp. apply wp_the_page; [|intros x; agrees_leaf].
  intros p. explore; agrees_leaf.
Qed.

Lemma screenshot_agrees (config : Config) (fullPage : JSValue) :
  wp (screenshot config fullPage)
    (fun r => agrees (shot_success r) (shot_base64 r) (shot_error r)) (fun _ => False).
Proof.
  unfold screenshot. cbv zeta. apply caught_wp. apply wp_the_page; [|intros x; agrees_leaf].
  intros p. explore; agrees_leaf.
Qed.

Lemma extractText_agrees (config : Config) (selector : JSValue) :
  wp (extractText config selector)
    (fun r => agrees (ext_success r) (ext_text r) (ext_error r)) (fun _ => False).
Proof.
  unfold extractText. apply caught_wp. apply wp_the_page; [|intros x; agrees_leaf].
  intros p. explore; agrees_leaf.
Qed.

Lemma executeJs_agrees (config : Config) (script : JSValue) :
  wp (executeJs config script)
    (fun r => agrees (js_success r) (js_result r) (js_error r)) (fun _ => False).
Proof.
  unfold executeJs. apply caught_wp. apply wp_the_page; [|intros x; agrees_leaf].
  intros p. explore; agrees_leaf.
Qed.

Lemma getAccessibilitySnapshot_agrees (config : Config) :
  wp (getAccessibilitySnapshot config)
    (fun r => agrees (snap_success r) (snap_snapshot r) (snap_error r)) (fun _ => False).
Proof.
  unfold getAccessibilitySnapshot. apply caught_wp.
  apply wp_the_page; [|intros x; agrees_leaf].
  intros p. explore; agrees_leaf.
Qed.

Lemma filtered_non_empty (l : list string) :
  Forall (fun s => s <> "") (List.filter non_empty l).
Proof.
  apply List.Forall_forall. intros s Hin.
  apply List.filter_In in Hin. destruct Hin as [_ Hne].
  unfold non_empty in Hne. apply negb_true_iff, String.eqb_neq in Hne. exact Hne.
Qed.

Lemma soft_error (err : option string) : soft [] err.
Proof. split; [right; reflexivity | constructor]. Qed.

Lemma soft_filtered (l : list string) : soft (List.filter non_empty l) None.
Proof. split; [left; reflexivity | apply filtered_non_empty]. Qed.

Lemma after_ensure {A : Type} (config : Config) (f : StatusResult -> Prog A)
    (Q : A -> Prop) (E : Exn -> Prop) :
  (forall st, wp (f st) Q E) -> wp (ensureMessengerOpen config ≫= f) Q E.
Proof.
  intros Hf. apply wp_bind.
  eapply wp_weaken;
    [ | | apply (caught_never_throws _ _ : never_throws (ensureMessengerOpen config)) ].
  - intros st _. apply Hf.
  - intros x [].
Qed.

Lemma listConversations_soft (config : Config) :
  wp (listConversations config)
    (fun r => soft (conversations r) (conversations_error r)) (fun _ => False).
Proof.
  unfold listConversations. apply caught_wp. apply after_ensure.
  intros st. destruct (negb (success st)); [apply soft_error|].
  apply wp_the_page; [|intros x; apply soft_error].
  intros p. simpl. intros [e|rows]; simpl; [apply soft_error | apply soft_filtered].
Qed.

Lemma searchConversation_soft (config : Config) (query : JSValue) :
  wp (searchConversation config query)
    (fun r => soft (results r) (results_error r)) (fun _ => False).
Proof.
  unfold searchConversation. apply caught_wp. apply after_ensure.
  intros st. destruct (negb (success st)); [apply soft_error|].
  apply wp_the_page; [|intros x; apply soft_error].
  intros p. explore; first [apply soft_error | apply soft_filtered].
Qed.

Lemma readMessages_soft (config : Config) (count : JSValue) :
  wp (readMessages config count)
    (fun r => soft (messages r) (messages_error r)) (fun _ => False).
Proof.
  unfold readMessages. cbv zeta. apply caught_wp. apply after_ensure.
  intros st. destruct (negb (success st)); [apply soft_error|].
  apply wp_the_page; [|intros x; apply soft_error].
  intros p. simpl. intros [e|rows]; simpl; [apply soft_error | apply soft_filtered].
Qed.

(** X11: the web tools that hand back a payload return normally, and the
    payload goes with the success flag: [navigate] has a title,
    [screenshot] a base64 string, [extractText] a text, [executeJs] the
    value of the script and [getAccessibilitySnapshot] a snapshot exactly when
    [success] is true, and then no error; with [success] false there is an
    error string and no payload. *)
Theorem payload_results_agree
    (config : Config) (o : Oracle) (n : nat) (m : BrowserManager) (a : JSValue) :
  (exists r, returned (run o n m (navigate config a)) = inr r /\
             agrees (nav_success r) (nav_title r) (nav_error r)) /\
  (exists r, returned (run o n m (screenshot config a)) = inr r /\
             agrees (shot_success r) (shot_base64 r) (shot_error r)) /\
  (exists r, returned (run o n m (extractText config a)) = inr r /\
             agrees (ext_success r) (ext_text r) (ext_error r)) /\
  (exists r, returned (run o n m (executeJs config a)) = inr r /\
             agrees (js_success r) (js_result r) (js_error r)) /\
  (exists r, returned (run o n m (getAccessibilitySnapshot config)) = inr r /\
             agrees (snap_success r) (snap_snapshot r) (snap_error r)).
Proof.
  split; [apply returns_in, navigate_agrees|].
  split; [apply returns_in, screenshot_agrees|].
  split; [apply returns_in, extractText_agrees|].
  split; [apply returns_in, executeJs_agrees|].
  apply returns_in, getAccessibilitySnapshot_agrees.
Qed.

(** X12: the messenger tools that hand back a list return normally under
    the soft-failure convention: whenever [listConversations],
    [searchConversation] or [readMessages] reports an error its list is
    empty, and no entry of a list is ever the empty string. *)
Theorem list_results_soft
    (config : Config) (o : Oracle) (n : nat) (m : BrowserManager) (a : JSValue) :
  (exists r, returned (run o n m (listConversations config)) = inr r /\
             soft (conversations r) (conversations_error r)) /\
  (exists r, returned (run o n m (searchConversation config a)) = inr r /\
             soft (results r) (results_error r)) /\
  (exists r, returned (run o n m (readMessages config a)) = inr r /\
             soft (messages r) (messages_error r)).
Proof.
  split; [apply returns_in, listConversations_soft|].
  split; [apply returns_in, searchConversation_soft|].
  apply returns_in, readMessages_soft.
Qed.

(** ** Worked runs *)

Example base64_man :
  base64 [Byte.x4d; Byte.x61; Byte.x6e] = "TWFu" /\
  base64 [Byte.x4d; Byte.x61] = "TWE=" /\
  base64 [Byte.x4d] = "TQ==".
Proof. repeat split; reflexivity. Qed.

Example conversation_names_rows :
  conversation_names
    [mkDomRow None (Some (Some " Ann ")); mkDomRow None None;
     mkDomRow None (Some None); mkDomRow None (Some (Some "  "))]
  = ["Ann"].
Proof. reflexivity. Qed.

(** Thirty named rows in the sidebar: twenty names come back. *)
Example thirty_rows :
  returned (run (engine never logged_in (repeat (mkDomRow None (Some (Some "x"))) 30)
                   messenger_home) 0 ready
              (listConversations default_config))
  = inr (mkConversations (repeat "x" 20) None).
Proof. vm_compute. reflexivity. Qed.

(** The calls of a successful [sendMessage] on an open, logged-in page. *)
Example sendMessage_calls :
  calls (trace (run (engine never logged_in [] messenger_home) 0 ready
                  (sendMessage default_config (JStr "Bob") (JStr "hi"))))
  = [CSync (PageUrl 3);
     CAwait (PageQuery 3 (JStr login_selector));
     CAwait (PageQuery 3 (JStr SELECTORS_searchInput));
     CAwait (ElementClick 7);
     CAwait (ElementFill 7 (JStr "Bob"));
     CAwait (PageWaitForTimeout 3 1000);
     CAwait (PageQuery 3 (JStr option_selector));
     CAwait (ElementClick 7);
     CAwait (PageWaitForTimeout 3 500);
     CAwait (PageQuery 3 (JStr SELECTORS_messageInput));
     CAwait (ElementClick 7);
     CAwait (ElementFill 7 (JStr "hi"));
     CAwait (KeyboardPress 3 "Enter");
     CAwait (PageWaitForTimeout 3 500)].
Proof. vm_compute. reflexivity. Qed.

(** A page elsewhere is first taken to Messenger. *)
Example ensureMessengerOpen_navigates :
  calls (trace (run (engine never logged_in [] "about:blank") 0 ready
                  (ensureMessengerOpen default_config)))
  = [CSync (PageUrl 3);
     CAwait (PageGoto 3 (JStr "https://www.messenger.com"));
     CAwait (PageWaitForLoadState 3 "networkidle");
     CAwait (PageQuery 3 (JStr login_selector))].
Proof. vm_compute. reflexivity. Qed.

(** The engine starts and the context does not: the browser handle stays. *)
Example context_failure :
  run (engine context_fails logged_in [] messenger_home) 0 browserManager
    (click default_config (JStr "#ok"))
  = mkOutcome (mkManager (Some 1) None Null)
      (inr (mkStatus false (Some "Error: Target closed")))
      [EAwait (ChromiumLaunch (Some "msedge") false) (inr 1);
       EAwait (BrowserNewContext 1) (inl engine_failure)].
Proof. vm_compute. reflexivity. Qed.

(** [web_navigate], then [web_click]; the click resolves first. *)
Example click_overtakes_navigation :
  log (two_calls default_config (engine never logged_in [] messenger_home) ready
         "web_navigate" (Some {["url" := JStr "https://example.org"]})
         "web_click" (Some {["selector" := JStr "#ok"]})
         [1; 0; 0; 0])
  = [Issued 0 (PageGoto 3 (JStr "https://example.org"));
     Issued 1 (PageClick 3 (JStr "#ok"));
     Resolved 1 (PageClick 3 (JStr "#ok"));
     Completed 1;
     Resolved 0 (PageGoto 3 (JStr "https://example.org"));
     Issued 0 (PageWaitForLoadState 3 "networkidle");
     Resolved 0 (PageWaitForLoadState 3 "networkidle");
     Issued 0 (PageTitle 3);
     Resolved 0 (PageTitle 3);
     Completed 0].
Proof. vm_compute. reflexivity. Qed.

(** Two calls on a manager that is not initialized: each launches an
    engine of its own. *)
Example both_calls_launch :
  log (two_calls default_config (engine never logged_in [] messenger_home) browserManager
         "web_navigate" (Some {["url" := JStr "https://example.org"]})
         "web_click" (Some {["selector" := JStr "#ok"]})
         [])
  = [Issued 0 (ChromiumLaunch (Some "msedge") false);
     Issued 1 (ChromiumLaunch (Some "msedge") false)].
Proof. vm_compute. reflexivity. Qed.

(** The search for "Bob" lists Alice only: her conversation is opened and
    the message sent. *)
Example message_goes_to_first_result :
  run alice_listed 0 ready (sendMessage default_config (JStr "Bob") (JStr "hi"))
  = mkOutcome ready (inr (mkStatus true None))
      [ESync (PageUrl 3) messenger_home;
       EAwait (PageQuery 3 (JStr login_selector)) (inr None);
       EAwait (PageQuery 3 (JStr SELECTORS_searchInput)) (inr (Some 7));
       EAwait (ElementClick 7) (inr tt);
       EAwait (ElementFill 7 (JStr "Bob")) (inr tt);
       EAwait (PageWaitForTimeout 3 1000) (inr tt);
       EAwait (PageQuery 3 (JStr option_selector)) (inr (Some 8));
       EAwait (ElementClick 8) (inr tt);
       EAwait (PageWaitForTimeout 3 500) (inr tt);
       EAwait (PageQuery 3 (JStr SELECTORS_messageInput)) (inr (Some 7));
       EAwait (ElementClick 7) (inr tt);
       EAwait (ElementFill 7 (JStr "hi")) (inr tt);
       EAwait (KeyboardPress 3 "Enter") (inr tt);
       EAwait (PageWaitForTimeout 3 500) (inr tt)].
Proof. vm_compute. reflexivity. Qed.

(** A script that hands back a BigInt: [executeJs] succeeds and
    [JSON.stringify] throws inside the dispatcher's [try]. *)
Example bigint_result_is_internal_error :
  returned (run bigint_page 0 ready
              (callTool default_config "web_execute_js"
                 (Some {["script" := JStr "1n"]})))
  = inl (McpError InternalError
           "Tool execution failed: Do not know how to serialize a BigInt").
Proof. vm_compute. reflexivity. Qed.

(** [switchTab(0.5)] with one tab open: neither comparison of the guard
    holds and [pages[0.5]] is undefined. *)
Example switchTab_half :
  run (engine never logged_in [] messenger_home) 0 ready
    (switchTab default_config (NFraction 0 "0.5"))
  = mkOutcome (mkManager (Some 1) (Some 2) Undefined)
      (inr (mkStatus false
              (Some "TypeError: Cannot read properties of undefined (reading 'setDefaultTimeout')")))
      [ESync (PageContext 3) 2; ESync (ContextPages 2) [3]].
Proof. vm_compute. reflexivity. Qed.

(** [switchTab(1)] with one tab open is turned down by the guard. *)
Example switchTab_one_past :
  run (engine never logged_in [] messenger_home) 0 ready
    (switchTab default_config (NInt 1))
  = mkOutcome ready (inr (mkStatus false (Some "Invalid tab index: 1")))
      [ESync (PageContext 3) 2; ESync (ContextPages 2) [3]].
Proof. vm_compute. reflexivity. Qed.
